(** * Sales research pipeline driver (main.py): shallow embedding

    The program wires a tree of ADK agents (a sequential root over a
    parallel research team, a positioning strategist and an outreach
    writer), instruments every agent with timing hooks that write into the
    shared session state, optionally opens an Exa MCP tool connection, and
    drives the runner's event stream, printing and saving the final draft.

    The embedding follows main.py function by function:
    - the session state (the blackboard) is a [gmap string value];
    - everything observable outside the process (stdout, the logger, the
      file system, the MCP connection) is recorded as a trace of [effect]s;
    - code that can raise runs in a small state-and-exception monad [M]
      with [try_finally] and [try_except_Exception] combinators;
    - what the ADK runtime, the operating system and the clock do is an
      input of the model ([Externals], [environ], the [now] arguments). *)

From Stdlib Require Import ZArith NArith Ascii String List Lia.
From stdpp Require Import base option list gmap strings fin_maps pretty.

Set Warnings "-register-all".

(** ** Python built-ins and library functions used by main.py *)

Module Py.

(** Truthiness of a [str]: empty strings are falsy. *)
Definition truthy_str (s : string) : bool :=
  match s with
  | EmptyString => false
  | String _ _ => true
  end.

(** [c * n] for a string [c] ('-'*20 in the source). *)
Fixpoint repeat_str (c : string) (n : nat) : string :=
  match n with
  | O => ""
  | S k => c +:+ repeat_str c k
  end.

(** [sep.join(items)]. *)
Fixpoint join (sep : string) (items : list string) : string :=
  match items with
  | [] => ""
  | [x] => x
  | x :: rest => x +:+ sep +:+ join sep rest
  end.

Definition byte_of (c : ascii) : N := N_of_ascii c.

Definition str_of_char (c : ascii) : string := String c EmptyString.

(** *** str.strip()

    [str.strip()] removes the characters for which [str.isspace()] holds:
    U+0009..U+000D, U+001C..U+0020, U+0085, U+00A0, U+1680,
    U+2000..U+200A, U+2028, U+2029, U+202F, U+205F and U+3000. A [string]
    here is the UTF-8 encoding of the Python [str], so a whitespace
    character is one, two or three bytes long. *)

(** One-byte whitespace: U+0009..U+000D and U+001C..U+0020. *)
Definition is_space1 (c0 : ascii) : bool :=
  let n := byte_of c0 in
  ((9 <=? n) && (n <=? 13) || (28 <=? n) && (n <=? 32))%N.

(** Two-byte whitespace: U+0085 (C2 85) and U+00A0 (C2 A0). *)
Definition is_space2 (c0 c1 : ascii) : bool :=
  ((byte_of c0 =? 194) && ((byte_of c1 =? 133) || (byte_of c1 =? 160)))%N.

(** Three-byte whitespace: U+1680 (E1 9A 80), U+2000..U+200A (E2 80 80 to
    E2 80 8A), U+2028, U+2029 and U+202F (E2 80 A8, A9, AF), U+205F
    (E2 81 9F) and U+3000 (E3 80 80). *)
Definition is_space3 (c0 c1 c2 : ascii) : bool :=
  let b0 := byte_of c0 in
  let b1 := byte_of c1 in
  let b2 := byte_of c2 in
  ((b0 =? 225) && (b1 =? 154) && (b2 =? 128)
   || (b0 =? 226) && (b1 =? 128)
      && ((128 <=? b2) && (b2 <=? 138) || (b2 =? 168) || (b2 =? 169)
          || (b2 =? 175))
   || (b0 =? 226) && (b1 =? 129) && (b2 =? 159)
   || (b0 =? 227) && (b1 =? 128) && (b2 =? 128))%N.

(** [s.lstrip()]: drop whitespace characters from the front. *)
Fixpoint lstrip (s : string) : string :=
  match s with
  | EmptyString => EmptyString
  | String c0 r0 =>
      if is_space1 c0 then lstrip r0
      else
        match r0 with
        | EmptyString => s
        | String c1 r1 =>
            if is_space2 c0 c1 then lstrip r1
            else
              match r1 with
              | EmptyString => s
              | String c2 r2 => if is_space3 c0 c1 c2 then lstrip r2 else s
              end
        end
  end.

(** The string consists of whitespace characters only. *)
Fixpoint blank (s : string) : bool :=
  match s with
  | EmptyString => true
  | String c0 r0 =>
      if is_space1 c0 then blank r0
      else
        match r0 with
        | EmptyString => false
        | String c1 r1 =>
            if is_space2 c0 c1 then blank r1
            else
              match r1 with
              | EmptyString => false
              | String c2 r2 => is_space3 c0 c1 c2 && blank r2
              end
        end
  end.

(** [s.rstrip()]: the string is cut where what remains is whitespace
    only. Inside a multi-byte character the remainder starts with a
    continuation byte and is never blank, so no character is split. *)
Fixpoint rstrip (s : string) : string :=
  match s with
  | EmptyString => EmptyString
  | String c r => if blank s then EmptyString else String c (rstrip r)
  end.

(** [s.strip()]. *)
Definition strip (s : string) : string := rstrip (lstrip s).

(** *** Hexadecimal formatting *)

Definition hex_digit (upper : bool) (d : N) : ascii :=
  if (d <? 10)%N then ascii_of_N (48 + d)
  else ascii_of_N ((if upper then 55 else 87) + d).

(** ['%02X' % b]: two upper-case hexadecimal digits. *)
Definition hex2_upper (b : N) : string :=
  String (hex_digit true (N.shiftr b 4 mod 16))
    (String (hex_digit true (b mod 16)) EmptyString).

(** ['{0:04x}'.format(n)] for [n < 0x10000]: four lower-case digits. *)
Definition hex4_lower (n : N) : string :=
  String (hex_digit false (N.shiftr n 12 mod 16))
    (String (hex_digit false (N.shiftr n 8 mod 16))
       (String (hex_digit false (N.shiftr n 4 mod 16))
          (String (hex_digit false (n mod 16)) EmptyString))).

(** *** urllib.parse.quote(string) with the default [safe='/']

    The string is encoded to UTF-8 and every byte outside the unreserved
    set (letters, digits, [_.-~]) and outside [safe] becomes [%XX].
    A [string] here already is its UTF-8 byte sequence. *)

Definition is_ascii_alnum (n : N) : bool :=
  ((48 <=? n) && (n <=? 57) || (65 <=? n) && (n <=? 90)
   || (97 <=? n) && (n <=? 122))%N.

Definition quote_safe (n : N) : bool :=
  is_ascii_alnum n
  || (n =? 95)%N || (n =? 46)%N || (n =? 45)%N || (n =? 126)%N
  || (n =? 47)%N.

Fixpoint quote (s : string) : string :=
  match s with
  | EmptyString => EmptyString
  | String c r =>
      let n := byte_of c in
      if quote_safe n then String c (quote r)
      else "%" +:+ hex2_upper n +:+ quote r
  end.

(** *** json.dumps on a list of [str] (default [ensure_ascii=True]) *)

Fixpoint bytes_of (s : string) : list N :=
  match s with
  | EmptyString => []
  | String c r => byte_of c :: bytes_of r
  end.

(** Code points of a UTF-8 byte sequence (a Python [str] is a sequence of
    code points; the model stores its UTF-8 encoding). A truncated
    sequence, which no Python [str] encodes to, is passed through. *)
Fixpoint code_points (bs : list N) : list N :=
  match bs with
  | [] => []
  | b0 :: r0 =>
      if (b0 <? 128)%N then b0 :: code_points r0
      else if (b0 <? 224)%N then
        match r0 with
        | b1 :: r1 =>
            N.lor (N.shiftl (N.land b0 31) 6) (N.land b1 63)
            :: code_points r1
        | [] => [b0]
        end
      else if (b0 <? 240)%N then
        match r0 with
        | b1 :: b2 :: r2 =>
            N.lor (N.shiftl (N.land b0 15) 12)
              (N.lor (N.shiftl (N.land b1 63) 6) (N.land b2 63))
            :: code_points r2
        | _ => b0 :: r0
        end
      else
        match r0 with
        | b1 :: b2 :: b3 :: r3 =>
            N.lor (N.shiftl (N.land b0 7) 18)
              (N.lor (N.shiftl (N.land b1 63) 12)
                 (N.lor (N.shiftl (N.land b2 63) 6) (N.land b3 63)))
            :: code_points r3
        | _ => b0 :: r0
        end
  end.

(** One code point as [py_encode_basestring_ascii] writes it. *)
Definition json_escape (n : N) : string :=
  if (n =? 34)%N then "\" +:+ str_of_char (ascii_of_N 34)
  else if (n =? 92)%N then "\\"
  else if (n =? 8)%N then "\b"
  else if (n =? 12)%N then "\f"
  else if (n =? 10)%N then "\n"
  else if (n =? 13)%N then "\r"
  else if (n =? 9)%N then "\t"
  else if ((32 <=? n) && (n <=? 126))%N then str_of_char (ascii_of_N n)
  else if (n <? 65536)%N then "\u" +:+ hex4_lower n
  else
    let v := (n - 65536)%N in
    "\u" +:+ hex4_lower (N.lor 55296 (N.shiftr v 10 mod 1024))
    +:+ "\u" +:+ hex4_lower (N.lor 56320 (v mod 1024)).

Definition dquote : string := str_of_char (ascii_of_N 34).

Definition json_dumps_str (s : string) : string :=
  dquote +:+ String.concat "" (map json_escape (code_points (bytes_of s)))
  +:+ dquote.

(** [json.dumps(l)] for a list of strings: items separated by [", "]. *)
Definition json_dumps (l : list string) : string :=
  "[" +:+ join ", " (map json_dumps_str l) +:+ "]".

End Py.

(** ** Configuration constants (main.py, lines 27-44) *)

Definition MODEL_NAME : string := "gemini-2.5-flash".
Definition APP_NAME : string := "sales_research_app".
Definition USER_ID : string := "sales_rep_01".
Definition SESSION_ID : string := "session_001".
Definition SALES_REP_NAME : string := "John Doe".
Definition PROSPECT_COMPANY : string := "Revolut".
Definition PROSPECT_NAME : string := "Carlos Selonke".

(** ** Values, exceptions and observable effects *)

(** What main.py stores in the session state: the float returned by
    [time.time()] (a clock reading, kept as an integer number of ticks) and
    the text an agent saved under its output key. *)
Inductive value :=
| VFloat (t : Z)
| VStr (s : string).

(** [bool(v)] *)
Definition truthy (v : value) : bool :=
  match v with
  | VFloat t => negb (t =? 0)%Z
  | VStr s => Py.truthy_str s
  end.

(** [str(v)]. A float with an integral value below 10^16 in magnitude
    prints with a trailing [.0]. *)
Definition py_str (v : value) : string :=
  match v with
  | VFloat t => pretty t +:+ ".0"
  | VStr s => s
  end.

(** A raised exception. [except Exception] catches the first kind only;
    [KeyboardInterrupt], [asyncio.CancelledError] and [SystemExit] derive
    from [BaseException] directly and are of the second kind. *)
Inductive raised :=
| PyException (cls msg : string)
| PyBaseException (cls msg : string).

(** [str(e)] *)
Definition exc_str (e : raised) : string :=
  match e with
  | PyException _ msg | PyBaseException _ msg => msg
  end.

(** Records handed to the module logger [ADK_Observer]. *)
Inductive log_record :=
| InfoStarted (agent_name : string)                         (* line 59 *)
| InfoFinished (agent_name : string) (duration : option Z)  (* line 74 *)
| InfoToolCall (tool_name agent_name : string)              (* line 101 *)
| WarnExaKeyNotSet                                          (* line 184 *)
| WarnCleanup (err : string).                               (* line 324 *)

(** The MCP tool set: its connection parameters are the server URL. *)
Record MCPToolset := { connection_url : string }.

Inductive effect :=
| Print (line : string)                     (* print(line) *)
| Log (r : log_record)                      (* logger.info / logger.warning *)
| CreateSession (app user session : string) (* session_service.create_session *)
| NewToolset (ts : MCPToolset)              (* MCPToolset(...) constructed *)
| NewRunner (root_name : string)            (* Runner(agent=root_agent, ...) *)
| RunAsync (user session message : string)  (* runner.run_async(...) started *)
| FileOpenW (path : string)                 (* open(path, "w"): truncate *)
| FileWrite (path text : string)            (* f.write(text) *)
| ToolsetClose (ts : MCPToolset).           (* await exa_toolset.close() *)

(** The mutable world: the session state shared by every agent of a run and
    the trace of effects performed so far, oldest first. *)
Record World := {
  state : gmap string value;
  trace : list effect;
}.

Definition world0 : World := {| state := ∅; trace := [] |}.

(** ** A state-and-exception monad for the statements of main.py *)

Inductive outcome (A : Type) :=
| Return (a : A)
| Raise (e : raised).
Arguments Return {A} a.
Arguments Raise {A} e.

Definition M (A : Type) : Type := World → outcome A * World.

Global Instance M_ret : MRet M := λ A a w, (Return a, w).

Global Instance M_bind : MBind M := λ A B f m w,
  match m w with
  | (Return a, w') => f a w'
  | (Raise e, w') => (Raise e, w')
  end.

Definition raise {A : Type} (e : raised) : M A := λ w, (Raise e, w).

Definition emit (e : effect) : M unit :=
  λ w, (Return tt, {| state := state w; trace := trace w ++ [e] |}).

Definition print (line : string) : M unit := emit (Print line).

(** [state.get(key)] *)
Definition state_get (key : string) : M (option value) :=
  λ w, (Return (state w !! key), w).

(** [state[key] = v] *)
Definition state_set (key : string) (v : value) : M unit :=
  λ w, (Return tt, {| state := <[key := v]> (state w); trace := trace w |}).

(** [try: body finally: fin]. The [finally] block runs whatever [body] did;
    an exception raised inside it replaces the pending outcome, otherwise
    the outcome of [body] stands. *)
Definition try_finally {A : Type} (body : M A) (fin : M unit) : M A :=
  λ w,
    let '(r, w1) := body w in
    match fin w1 with
    | (Return _, w2) => (r, w2)
    | (Raise e, w2) => (Raise e, w2)
    end.

(** [try: body except Exception as e: handler(e)]. *)
Definition try_except_Exception (body : M unit) (handler : raised → M unit)
  : M unit :=
  λ w,
    match body w with
    | (Raise (PyException cls msg), w1) => handler (PyException cls msg) w1
    | other => other
    end.

(** [for x in xs: body(x)], stopping at the first exception. *)
Fixpoint for_each {A : Type} (xs : list A) (body : A → M unit) : M unit :=
  match xs with
  | [] => mret tt
  | x :: rest => body x ;; for_each rest body
  end.

(** ** Lifecycle hooks (main.py, lines 54-102) *)

Record CallbackContext := {
  agent_name : string;
  invocation_id : string;
}.

(** f"metrics:start_time:{invocation_id}:{agent_name}" *)
Definition start_time_key (ctx : CallbackContext) : string :=
  "metrics:start_time:" +:+ invocation_id ctx +:+ ":" +:+ agent_name ctx.

(** [on_agent_start]; [now] is what [time.time()] returns at line 58. *)
Definition on_agent_start (now : Z) (ctx : CallbackContext) : M unit :=
  state_set (start_time_key ctx) (VFloat now) ;;
  emit (Log (InfoStarted (agent_name ctx))).

(** The dictionary [output_map] of [on_agent_end] (lines 78-85). *)
Definition output_map : list (string * string) :=
  [ ("NewsResearcher", "news_data");
    ("CompetitorResearcher", "competitor_data");
    ("MetricsResearcher", "metrics_data");
    ("TechStackResearcher", "techstack_data");
    ("LeadResearcher", "lead_data");
    ("PositioningStrategist", "positioning_strategy") ].

Fixpoint dict_get (d : list (string * string)) (k : string) : option string :=
  match d with
  | [] => None
  | (k', v) :: rest => if String.eqb k k' then Some v else dict_get rest k
  end.

(** [time.time() - start_time]: a float minus a [str] is a [TypeError]. *)
Definition elapsed (now : Z) (start_time : value) : M Z :=
  match start_time with
  | VFloat t => mret (now - t)%Z
  | VStr _ =>
      raise (PyException "TypeError"
               "unsupported operand type(s) for -: 'float' and 'str'")
  end.

(** [on_agent_end]; [now] is what [time.time()] returns at line 71. *)
Definition on_agent_end (now : Z) (ctx : CallbackContext) : M unit :=
  start_time ← state_get (start_time_key ctx);
  duration_msg ←
    match start_time with
    | Some v => if truthy v then d ← elapsed now v; mret (Some d)
                else mret None
    | None => mret None
    end;
  emit (Log (InfoFinished (agent_name ctx) duration_msg)) ;;
  match dict_get output_map (agent_name ctx) with
  | Some state_key =>
      data ← state_get state_key;
      match data with
      | Some v =>
          if truthy v then
            print (String (ascii_of_N 10) (Py.repeat_str "-" 20)
                   +:+ " INTERMEDIATE OUTPUT: " +:+ agent_name ctx +:+ " "
                   +:+ Py.repeat_str "-" 20) ;;
            print (Py.strip (py_str v)) ;;
            print (Py.repeat_str "-" 65 +:+ String (ascii_of_N 10) "")
          else mret tt
      | None => mret tt
      end
  | None => mret tt
  end.

(** [on_tool_start] *)
Definition on_tool_start (tool_name : string) (tool_agent_name : string)
  : M unit :=
  emit (Log (InfoToolCall tool_name tool_agent_name)).

(** ** The agent tree (main.py, lines 198-273) *)

Inductive tool :=
| google_search
| web_loader_tool                   (* FunctionTool(load_web_page) *)
| mcp_tools (ts : MCPToolset).      (* the Exa tool set *)

(** The instruction constants of lines 105-177; their text is prompt data. *)
Inductive instruction :=
| NEWS_INSTRUCTION
| COMPETITOR_INSTRUCTION
| METRICS_INSTRUCTION
| TECHSTACK_INSTRUCTION
| LEAD_INSTRUCTION
| POSITIONING_INSTRUCTION
| OUTREACH_INSTRUCTION.

(** The callbacks an agent can carry are the three hooks above. *)
Inductive agent_callback := cb_on_agent_start | cb_on_agent_end.
Inductive tool_callback := cb_on_tool_start.

(** Keyword arguments of [LlmAgent(...)]; an argument the call leaves out
    has the value the class gives it ([None], [[]] or [False]). *)
Record LlmConfig := {
  llm_name : string;
  llm_model : string;
  llm_instruction : instruction;
  output_key : option string;
  tools : list tool;
  disallow_transfer_to_parent : bool;
  disallow_transfer_to_peers : bool;
  before_agent_callback : option agent_callback;
  after_agent_callback : option agent_callback;
  before_tool_callback : option tool_callback;
}.

Inductive agent :=
| LlmAgent (cfg : LlmConfig)
| ParallelAgent (name : string) (sub_agents : list agent)
    (before after : option agent_callback)
| SequentialAgent (name : string) (sub_agents : list agent)
    (before after : option agent_callback).

Definition name_of (a : agent) : string :=
  match a with
  | LlmAgent cfg => llm_name cfg
  | ParallelAgent name _ _ _ | SequentialAgent name _ _ _ => name
  end.

(** The output key an agent declares; only leaf agents declare one. *)
Definition output_key_of (a : agent) : option string :=
  match a with
  | LlmAgent cfg => output_key cfg
  | ParallelAgent _ _ _ _ | SequentialAgent _ _ _ _ => None
  end.

(** Output keys declared by the direct children of a group. *)
Definition sibling_output_keys (subs : list agent) : list string :=
  omap output_key_of subs.

(** Every output key declared anywhere in a tree, left to right. *)
Fixpoint declared_output_keys (a : agent) : list string :=
  match a with
  | LlmAgent cfg => from_option (λ k, [k]) [] (output_key cfg)
  | ParallelAgent _ subs _ _ | SequentialAgent _ subs _ _ =>
      (fix go (l : list agent) : list string :=
         match l with
         | [] => []
         | x :: r => declared_output_keys x ++ go r
         end) subs
  end.

(** The Parallel Groups of a tree, each as its list of children. *)
Fixpoint parallel_groups (a : agent) : list (list agent) :=
  let fix go (l : list agent) : list (list agent) :=
    match l with
    | [] => []
    | x :: r => parallel_groups x ++ go r
    end in
  match a with
  | LlmAgent _ => []
  | ParallelAgent _ subs _ _ => subs :: go subs
  | SequentialAgent _ subs _ _ => go subs
  end.

(** Does some key occur twice in the list? *)
Fixpoint has_duplicate (l : list string) : bool :=
  match l with
  | [] => false
  | k :: r => existsb (String.eqb k) r || has_duplicate r
  end.

(** Evaluating a constructor call such as
    [ParallelAgent(name=..., sub_agents=...)]: main.py uses the object the
    call returns. What the classes of google.adk check in their arguments
    lies outside main.py and is not modelled; the calls of [build_agents],
    whose arguments are the literals of the source, are taken to return. *)
Definition construct (a : agent) : M agent := mret a.

(** An [LlmAgent] built from [name], [instruction], [output_key] and the
    shared keyword dictionary [search_agent_config] (lines 204-218). *)
Definition search_agent (name : string) (instr : instruction) (key : string)
  : agent :=
  LlmAgent {|
    llm_name := name;
    llm_model := MODEL_NAME;
    llm_instruction := instr;
    output_key := Some key;
    tools := [google_search];
    disallow_transfer_to_parent := true;
    disallow_transfer_to_peers := true;
    before_agent_callback := Some cb_on_agent_start;
    after_agent_callback := Some cb_on_agent_end;
    before_tool_callback := Some cb_on_tool_start;
  |}.

(** [build_agents]. [if exa_toolset] is the truthiness of an
    [Optional[MCPToolset]]: [None] is falsy, a tool set object is truthy. *)
Definition build_agents (exa_toolset : option MCPToolset) : M agent :=
  news_agent ← construct
    (search_agent "NewsResearcher" NEWS_INSTRUCTION "news_data");
  competitor_agent ← construct
    (search_agent "CompetitorResearcher" COMPETITOR_INSTRUCTION
       "competitor_data");
  metrics_agent ← construct
    (search_agent "MetricsResearcher" METRICS_INSTRUCTION "metrics_data");
  techstack_agent ← construct
    (search_agent "TechStackResearcher" TECHSTACK_INSTRUCTION
       "techstack_data");
  lead_agent ← construct (LlmAgent {|
    llm_name := "LeadResearcher";
    llm_model := MODEL_NAME;
    llm_instruction := LEAD_INSTRUCTION;
    output_key := Some "lead_data";
    tools := match exa_toolset with
             | Some ts => [mcp_tools ts]
             | None => [google_search]
             end;
    disallow_transfer_to_parent := true;
    disallow_transfer_to_peers := true;
    before_agent_callback := Some cb_on_agent_start;
    after_agent_callback := Some cb_on_agent_end;
    before_tool_callback := Some cb_on_tool_start;
  |});
  parallel_research_team ← construct
    (ParallelAgent "ParallelResearchTeam"
       [news_agent; competitor_agent; metrics_agent; techstack_agent;
        lead_agent]
       (Some cb_on_agent_start) (Some cb_on_agent_end));
  positioning_agent ← construct (LlmAgent {|
    llm_name := "PositioningStrategist";
    llm_model := MODEL_NAME;
    llm_instruction := POSITIONING_INSTRUCTION;
    output_key := Some "positioning_strategy";
    tools := [web_loader_tool];
    disallow_transfer_to_parent := false;
    disallow_transfer_to_peers := false;
    before_agent_callback := Some cb_on_agent_start;
    after_agent_callback := Some cb_on_agent_end;
    before_tool_callback := Some cb_on_tool_start;
  |});
  outreach_agent ← construct (LlmAgent {|
    llm_name := "OutreachWriter";
    llm_model := MODEL_NAME;
    llm_instruction := OUTREACH_INSTRUCTION;
    output_key := None;
    tools := [];
    disallow_transfer_to_parent := false;
    disallow_transfer_to_peers := false;
    before_agent_callback := Some cb_on_agent_start;
    after_agent_callback := Some cb_on_agent_end;
    before_tool_callback := None;
  |});
  construct
    (SequentialAgent "LeadResearchSystem"
       [parallel_research_team; positioning_agent; outreach_agent]
       (Some cb_on_agent_start) (Some cb_on_agent_end)).

(** ** The Exa tool connection (main.py, lines 180-196) *)

(** [os.environ.get(name, "")] *)
Definition environ_get (environ : gmap string string) (name : string)
  : string :=
  default "" (environ !! name).

Definition enabled_tools : list string := ["linkedin_search"; "web_search_exa"].

(** [create_exa_toolset] *)
Definition create_exa_toolset (environ : gmap string string)
  : M (option MCPToolset) :=
  let exa_api_key := environ_get environ "EXA_API_KEY" in
  if negb (Py.truthy_str exa_api_key) then
    emit (Log WarnExaKeyNotSet) ;;
    mret None
  else
    let encoded_tools := Py.quote (Py.json_dumps enabled_tools) in
    let exa_url :=
      "https://mcp.exa.ai/mcp?exaApiKey=" +:+ exa_api_key
      +:+ "&enabledTools=" +:+ encoded_tools in
    let ts := {| connection_url := exa_url |} in
    emit (NewToolset ts) ;;
    mret (Some ts).

(** ** The run driver (main.py, lines 276-324) *)

(** An event of the runner's stream, as far as [main] inspects it:
    [event.author], [event.is_final_response()], [event.content] and, below
    it, [content.parts[0].text]. *)
Record Part := { text : option string }.
Record Content := { parts : option (list Part) }.
Record Event := {
  author : string;
  is_final_response : bool;
  content : option Content;
}.

(** What the world outside [main] does during one run. *)
Record Externals := {
  (** the events [runner.run_async] yields, in order *)
  events : list Event;
  (** how the stream ends: exhausted ([None]), or an exception thrown into
      [main] at the [async for] (a failure propagated by the runner, or the
      cancellation that an interrupt delivers) *)
  stream_end : option raised;
  (** the exception [open(path, "w")] raises for [path], if any *)
  open_error : string → option raised;
  (** the exception [exa_toolset.close()] raises, if any *)
  close_error : option raised;
  (** [os.getcwd()] *)
  cwd : string;
}.

Definition nl : string := String (ascii_of_N 10) EmptyString.

(** [event.content.parts[0].text] *)
Definition first_part_text (c : Content) : M (option string) :=
  match parts c with
  | None =>
      raise (PyException "TypeError" "'NoneType' object is not subscriptable")
  | Some [] => raise (PyException "IndexError" "list index out of range")
  | Some (p :: _) => mret (text p)
  end.

(** [str(x)] for an optional string, as [print] shows it. *)
Definition str_of_optional (x : option string) : string :=
  default "None" x.

(** [with open(path, "w", encoding="utf-8") as f: f.write(final_text)] *)
Definition write_text_file (ext : Externals) (path : string)
    (final_text : option string) : M unit :=
  match open_error ext path with
  | Some e => raise e
  | None =>
      emit (FileOpenW path) ;;
      match final_text with
      | Some t => emit (FileWrite path t)
      | None =>
          raise (PyException "TypeError"
                   "write() argument must be str, not None")
      end
  end.

(** [os.path.abspath(filename)] for a relative file name without [.] or
    [..] components, under the current directory [dir]. *)
Definition abspath (dir filename : string) : string :=
  if String.eqb dir "/" then dir +:+ filename
  else dir +:+ "/" +:+ filename.

Definition banner : string :=
  "================================================================".

(** The body of the [async for] loop (lines 300-316). *)
Definition handle_event (ext : Externals) (event : Event) : M unit :=
  match is_final_response event, content event with
  | true, Some c =>
      if String.eqb (author event) "OutreachWriter" then
        final_text ← first_part_text c;
        print (nl +:+ banner) ;;
        print "📧 FINAL OUTREACH DRAFT" ;;
        print (banner +:+ nl) ;;
        print (str_of_optional final_text) ;;
        let filename := "sales_outreach.md" in
        write_text_file ext filename final_text ;;
        print (nl +:+ "✅ Saved outreach draft to: "
               +:+ abspath (cwd ext) filename)
      else if String.eqb (author event) "PositioningStrategist" then
        print (nl +:+ "[DEBUG] Positioning Strategy Generated..." +:+ nl)
      else mret tt
  | _, _ => mret tt
  end.

(** [await exa_toolset.close()] *)
Definition toolset_close (ext : Externals) (ts : MCPToolset) : M unit :=
  emit (ToolsetClose ts) ;;
  match close_error ext with
  | Some e => raise e
  | None => mret tt
  end.

(** The [finally] block (lines 317-324). *)
Definition cleanup (ext : Externals) (exa_toolset : option MCPToolset)
  : M unit :=
  match exa_toolset with
  | Some ts =>
      print (nl +:+ "Closing Exa toolset connection...") ;;
      try_except_Exception (toolset_close ext ts)
        (λ e, emit (Log (WarnCleanup (exc_str e))))
  | None => mret tt
  end.

(** The [try] block (lines 299-316): iterate the stream to its end. *)
Definition event_loop (ext : Externals) : M unit :=
  for_each (events ext) (handle_event ext) ;;
  match stream_end ext with
  | Some e => raise e
  | None => mret tt
  end.

(** [not os.environ.get(name)] *)
Definition env_unset (environ : gmap string string) (name : string) : bool :=
  match environ !! name with
  | Some v => negb (Py.truthy_str v)
  | None => true
  end.

(** [main] *)
Definition main (environ : gmap string string) (ext : Externals) : M unit :=
  if env_unset environ "GOOGLE_API_KEY"
     && env_unset environ "GOOGLE_GENAI_USE_VERTEXAI"
  then print "Error: GOOGLE_API_KEY not found."
  else
    emit (CreateSession APP_NAME USER_ID SESSION_ID) ;;
    exa_toolset ← create_exa_toolset environ;
    root_agent ← build_agents exa_toolset;
    emit (NewRunner (name_of root_agent)) ;;
    print ("🚀 Starting Sales System (Rep: " +:+ SALES_REP_NAME +:+ ")...") ;;
    print "----------------------------------------------------------------" ;;
    let user_query :=
      "Research prospect '" +:+ PROSPECT_NAME +:+ "' and their company: '"
      +:+ PROSPECT_COMPANY +:+ "'." in
    print ("TARGET: " +:+ user_query +:+ nl) ;;
    try_finally
      (emit (RunAsync USER_ID SESSION_ID user_query) ;; event_loop ext)
      (cleanup ext exa_toolset).

(** ** Observations on a trace *)

(** How many times [close] was invoked. *)
Fixpoint close_count (tr : list effect) : nat :=
  match tr with
  | [] => 0
  | ToolsetClose _ :: r => S (close_count r)
  | _ :: r => close_count r
  end.

(** Effects that create a session, a tool connection or a runner, or start
    the run. *)
Definition is_construction (e : effect) : bool :=
  match e with
  | CreateSession _ _ _ | NewToolset _ | NewRunner _ | RunAsync _ _ _ => true
  | _ => false
  end.

(** The lines printed on standard output, oldest first. *)
Definition stdout (tr : list effect) : list string :=
  omap (λ e, match e with Print l => Some l | _ => None end) tr.

(** The file system after an effect and after a trace: opening for writing
    creates or empties the file, writing appends to it. *)
Definition fs_step (fs : gmap string string) (e : effect)
  : gmap string string :=
  match e with
  | FileOpenW p => <[p := ""]> fs
  | FileWrite p t => <[p := default "" (fs !! p) +:+ t]> fs
  | _ => fs
  end.

Definition files_after (fs : gmap string string) (tr : list effect)
  : gmap string string :=
  fold_left fs_step tr fs.

(** [w] after the effects [tr] were appended to its trace. *)
Definition extend (w : World) (tr : list effect) : World :=
  {| state := state w; trace := trace w ++ tr |}.

(** A computation that neither reads nor writes the session state: it has
    one outcome [r] and appends one list of effects [tr], whatever the
    world it starts from; every appended effect satisfies [P]. *)
Definition trace_only {A : Type} (P : effect → Prop) (m : M A) : Prop :=
  ∃ (r : outcome A) (tr : list effect),
    Forall P tr ∧ ∀ w, m w = (r, extend w tr).

(** A computation that may read the session state but leaves it as it is
    and only appends effects to the trace. *)
Definition observer {A : Type} (m : M A) : Prop :=
  ∀ w, ∃ tr, (m w).2 = extend w tr.

(** Outcome and effects of a computation run from the empty world; for a
    trace-only computation they describe its run from any world. *)
Definition result_of {A : Type} (m : M A) : outcome A := (m world0).1.
Definition effects_of {A : Type} (m : M A) : list effect := trace (m world0).2.

(** How many tool connections were created. *)
Fixpoint created_count (tr : list effect) : nat :=
  match tr with
  | [] => 0
  | NewToolset _ :: r => S (created_count r)
  | _ :: r => created_count r
  end.

Definition is_print (e : effect) : Prop :=
  match e with
  | Print _ => True
  | _ => False
  end.

(** Effects that leave every file as it is. *)
Definition keeps_files (e : effect) : Prop :=
  ∀ fs : gmap string string, fs_step fs e = fs.

(** Effects of the event loop: console output and file writes. *)
Definition is_io (e : effect) : Prop :=
  match e with
  | Print _ | FileOpenW _ | FileWrite _ _ => True
  | _ => False
  end.

(** What the [finally] block does with an open connection, by the way
    [close] ends. *)
Definition cleanup_effects (ext : Externals) (ts : MCPToolset) : list effect :=
  [Print (nl +:+ "Closing Exa toolset connection..."); ToolsetClose ts]
  ++ match close_error ext with
     | Some (PyException _ msg) => [Log (WarnCleanup msg)]
     | _ => []
     end.

(** What [main] does between the credential check and the event loop;
    [creation] is what [create_exa_toolset] did. *)
Definition startup_effects (creation : list effect) : list effect :=
  [CreateSession APP_NAME USER_ID SESSION_ID] ++ creation
  ++ [NewRunner "LeadResearchSystem";
      Print ("🚀 Starting Sales System (Rep: " +:+ SALES_REP_NAME +:+ ")...");
      Print "----------------------------------------------------------------";
      Print ("TARGET: " +:+ "Research prospect '" +:+ PROSPECT_NAME
             +:+ "' and their company: '" +:+ PROSPECT_COMPANY +:+ "'."
             +:+ nl);
      RunAsync USER_ID SESSION_ID
        ("Research prospect '" +:+ PROSPECT_NAME
         +:+ "' and their company: '" +:+ PROSPECT_COMPANY +:+ "'.")].

(** The credential check of [main] (line 278) lets the run start. *)
Definition model_credential_present (environ : gmap string string) : bool :=
  negb (env_unset environ "GOOGLE_API_KEY"
        && env_unset environ "GOOGLE_GENAI_USE_VERTEXAI").

(** The tree [build_agents] returns, read off a run from the empty world. *)
Definition built_tree (exa_toolset : option MCPToolset) : option agent :=
  match build_agents exa_toolset world0 with
  | (Return tree, _) => Some tree
  | (Raise _, _) => None
  end.

(** The configuration of the leaf agent called [name], if the tree has one. *)
Fixpoint find_llm (name : string) (a : agent) : option LlmConfig :=
  let fix go (l : list agent) : option LlmConfig :=
    match l with
    | [] => None
    | x :: r =>
        match find_llm name x with
        | Some cfg => Some cfg
        | None => go r
        end
    end in
  match a with
  | LlmAgent cfg => if String.eqb (llm_name cfg) name then Some cfg else None
  | ParallelAgent _ subs _ _ | SequentialAgent _ subs _ _ => go subs
  end.

(** The events whose text [main] prints and saves: final responses with a
    content, authored by the outreach writer (lines 300-301). *)
Definition is_final_output (e : Event) : bool :=
  is_final_response e
  && match content e with Some _ => true | None => false end
  && String.eqb (author e) "OutreachWriter".

(** The last such event of a stream: the final pipeline output. *)
Fixpoint last_final_output (evs : list Event) : option Event :=
  match evs with
  | [] => None
  | x :: rest =>
      match last_final_output rest with
      | Some e => Some e
      | None => if is_final_output x then Some x else None
      end
  end.

(** [event.content.parts[0].text] when every step of the path exists. *)
Definition final_output_text (e : Event) : option string :=
  match content e with
  | Some c =>
      match parts c with
      | Some (p :: _) => text p
      | _ => None
      end
  | None => None
  end.

(** ** Sample runs *)

Definition positioning_event : Event :=
  {| author := "PositioningStrategist"; is_final_response := true;
     content := Some {| parts := Some [{| text := Some "## Strategy" |}] |} |}.

Definition outreach_event : Event :=
  {| author := "OutreachWriter"; is_final_response := true;
     content := Some {| parts := Some [{| text := Some "Hi Carlos" |}] |} |}.

(** A run that completes: both final events arrive, the stream ends. *)
Definition completed_run : Externals :=
  {| events := [positioning_event; outreach_event];
     stream_end := None;
     open_error := λ _, None;
     close_error := None;
     cwd := "/home/rep" |}.

(** A run in which a stage fails after the strategy was produced, and
    closing the connection fails as well. *)
Definition failed_run : Externals :=
  {| events := [positioning_event];
     stream_end := Some (PyException "RuntimeError" "model call failed");
     open_error := λ _, None;
     close_error := Some (PyException "RuntimeError" "cancel scope");
     cwd := "/home/rep" |}.

(** A run in which a stage fails and the task is cancelled while
    [close] is awaited. *)
Definition cancelled_close_run : Externals :=
  {| events := [positioning_event];
     stream_end := Some (PyException "RuntimeError" "model call failed");
     open_error := λ _, None;
     close_error := Some (PyBaseException "CancelledError" "");
     cwd := "/home/rep" |}.

(** A run interrupted before any event arrived. *)
Definition interrupted_run : Externals :=
  {| events := [];
     stream_end := Some (PyBaseException "CancelledError" "");
     open_error := λ _, None;
     close_error := None;
     cwd := "/home/rep" |}.

(** Environments: every credential set, and the model credential only. *)
Definition full_environ : gmap string string :=
  <["GOOGLE_API_KEY" := "g-key"]> {[ "EXA_API_KEY" := "k-123" ]}.

Definition model_only_environ : gmap string string :=
  {[ "GOOGLE_API_KEY" := "g-key" ]}.

(** ** Further observations used by the properties of the hooks, the tree
    and the driver *)

(** A computation that returns normally from every world. *)
Definition never_raises {A : Type} (m : M A) : Prop :=
  ∀ w, ∃ a, (m w).1 = Return a.

(** No [":"] occurs in the string. *)
Fixpoint colon_free (s : string) : bool :=
  match s with
  | EmptyString => true
  | String c r => negb (Ascii.eqb c ":") && colon_free r
  end.

(** Every node of a tree, parents before children, left to right. *)
Fixpoint agents_of (a : agent) : list agent :=
  let fix go (l : list agent) : list agent :=
    match l with
    | [] => []
    | x :: r => agents_of x ++ go r
    end in
  match a with
  | LlmAgent _ => [a]
  | ParallelAgent _ subs _ _ | SequentialAgent _ subs _ _ => a :: go subs
  end.

(** The agent callbacks of a node, before and after. *)
Definition agent_callbacks (a : agent)
  : option agent_callback * option agent_callback :=
  match a with
  | LlmAgent cfg => (before_agent_callback cfg, after_agent_callback cfg)
  | ParallelAgent _ _ b e | SequentialAgent _ _ b e => (b, e)
  end.

(** The tools of a node; groups have none of their own. *)
Definition tools_of (a : agent) : list tool :=
  match a with
  | LlmAgent cfg => tools cfg
  | ParallelAgent _ _ _ _ | SequentialAgent _ _ _ _ => []
  end.

Definition tool_callback_of (a : agent) : option tool_callback :=
  match a with
  | LlmAgent cfg => before_tool_callback cfg
  | ParallelAgent _ _ _ _ | SequentialAgent _ _ _ _ => None
  end.

Definition is_mcp (t : tool) : bool :=
  match t with
  | mcp_tools _ => true
  | _ => false
  end.

(** An effect that leaves the file at [path] as it is. *)
Definition leaves_path (path : string) (e : effect) : Prop :=
  ∀ fs : gmap string string, fs_step fs e !! path = fs !! path.

(** An effect that opens or writes no file but [path]. *)
Definition writes_only (path : string) (e : effect) : Prop :=
  match e with
  | FileOpenW q | FileWrite q _ => q = path
  | _ => True
  end.

(** The characters [urllib.parse.quote] can produce: the unreserved set,
    the slash, and the percent sign of an escape. *)
Definition url_char (c : ascii) : bool :=
  Py.quote_safe (Py.byte_of c) || Ascii.eqb c "%".

Fixpoint all_chars (p : ascii → bool) (s : string) : bool :=
  match s with
  | EmptyString => true
  | String c r => p c && all_chars p r
  end.

(** The three lines [on_agent_end] prints for the output [v] of an agent. *)
Definition output_block (name : string) (v : value) : list effect :=
  [Print (String (ascii_of_N 10) (Py.repeat_str "-" 20)
          +:+ " INTERMEDIATE OUTPUT: " +:+ name +:+ " "
          +:+ Py.repeat_str "-" 20);
   Print (Py.strip (py_str v));
   Print (Py.repeat_str "-" 65 +:+ String (ascii_of_N 10) "")].

(** The duration [on_agent_end] computes from a numeric start record. *)
Definition duration_of (now start : Z) : option Z :=
  if (start =? 0)%Z then None else Some (now - start)%Z.

(** A run whose outreach event has a content without parts, one whose
    first part has no text, and one in which the file cannot be opened. *)
Definition event_without_parts : Event :=
  {| author := "OutreachWriter"; is_final_response := true;
     content := Some {| parts := Some [] |} |}.

Definition event_without_text : Event :=
  {| author := "OutreachWriter"; is_final_response := true;
     content := Some {| parts := Some [{| text := None |}] |} |}.

Definition run_with (e : Event) (open_err : option raised) : Externals :=
  {| events := [positioning_event; e; positioning_event];
     stream_end := None;
     open_error := λ _, open_err;
     close_error := None;
     cwd := "/home/rep" |}.

(** * Properties *)

(** ** Equations of the monad *)

Section monad_facts.
Context {A B : Type}.

Lemma bind_ret (a : A) (f : A → M B) : mret a ≫= f = f a.
Proof. reflexivity. Qed.

Lemma bind_raise (e : raised) (f : A → M B) : raise e ≫= f = raise e.
Proof. reflexivity. Qed.

Lemma bind_emit (e : effect) (f : unit → M B) (w : World) :
  (emit e ≫= f) w = f tt (extend w [e]).
Proof. reflexivity. Qed.

Lemma bind_state_get (k : string) (f : option value → M B) (w : World) :
  (state_get k ≫= f) w = f (state w !! k) w.
Proof. reflexivity. Qed.

Lemma emit_run (e : effect) (w : World) :
  emit e w = (Return tt, extend w [e]).
Proof. reflexivity. Qed.

Lemma bind_assoc {C : Type} (m : M A) (f : A → M B) (g : B → M C)
    (w : World) :
  ((m ≫= f) ≫= g) w = (m ≫= (λ a, f a ≫= g)) w.
Proof. unfold mbind, M_bind. by destruct (m w) as [[a | e] w1]. Qed.

Lemma bind_run (m : M A) (f : A → M B) (w w1 : World) (a : A) :
  m w = (Return a, w1) → (m ≫= f) w = f a w1.
Proof. intros H. unfold mbind, M_bind. by rewrite H. Qed.

Lemma bind_run_raise (m : M A) (f : A → M B) (w w1 : World) (e : raised) :
  m w = (Raise e, w1) → (m ≫= f) w = (Raise e, w1).
Proof. intros H. unfold mbind, M_bind. by rewrite H. Qed.
End monad_facts.

Lemma extend_nil (w : World) : extend w [] = w.
Proof. destruct w as [s tr]. unfold extend. cbn. by rewrite app_nil_r. Qed.

Lemma extend_extend (w : World) (tr1 tr2 : list effect) :
  extend (extend w tr1) tr2 = extend w (tr1 ++ tr2).
Proof. unfold extend. cbn. by rewrite app_assoc. Qed.

(** *** Observers: the state is kept, the trace only grows *)

Section observer_facts.
Context {A B : Type}.

Lemma observer_ret (a : A) : observer (mret a : M A).
Proof. intros w. exists []. symmetry. apply extend_nil. Qed.

Lemma observer_raise (e : raised) : observer (raise e : M A).
Proof. intros w. exists []. symmetry. apply extend_nil. Qed.

Lemma observer_emit (e : effect) : observer (emit e).
Proof. intros w. by exists [e]. Qed.

Lemma observer_state_get (k : string) : observer (state_get k).
Proof. intros w. exists []. symmetry. apply extend_nil. Qed.

Lemma observer_bind (m : M A) (f : A → M B) :
  observer m → (∀ a, observer (f a)) → observer (m ≫= f).
Proof.
  intros Hm Hf w. destruct (Hm w) as [tr1 H1].
  unfold mbind, M_bind. destruct (m w) as [[a | e] w1]; cbn in H1; subst w1.
  - destruct (Hf a (extend w tr1)) as [tr2 H2].
    exists (tr1 ++ tr2). by rewrite H2, extend_extend.
  - by exists tr1.
Qed.
End observer_facts.

(** Structural proof that a computation is an observer. *)
Ltac observer_tac :=
  repeat first
    [ apply observer_ret | apply observer_raise | apply observer_emit
    | apply observer_state_get
    | apply observer_bind; [| intros ?]
    | match goal with
      | |- observer (match ?x with _ => _ end) => destruct x
      end ].

(** *** Trace-only computations *)

Section trace_only_facts.
Context {A B : Type} (P : effect → Prop).

Lemma trace_only_ret (a : A) : trace_only P (mret a : M A).
Proof.
  exists (Return a), []. split; [constructor |].
  intros w. by rewrite extend_nil.
Qed.

Lemma trace_only_raise (e : raised) : trace_only P (raise e : M A).
Proof.
  exists (Raise e), []. split; [constructor |].
  intros w. by rewrite extend_nil.
Qed.

Lemma trace_only_emit (e : effect) : P e → trace_only P (emit e).
Proof. intros He. exists (Return tt), [e]. split; [by repeat constructor | done]. Qed.

Lemma trace_only_bind (m : M A) (f : A → M B) :
  trace_only P m → (∀ a, trace_only P (f a)) → trace_only P (m ≫= f).
Proof.
  intros (r & tr1 & HP1 & H1) Hf. destruct r as [a | e].
  - destruct (Hf a) as (r2 & tr2 & HP2 & H2).
    exists r2, (tr1 ++ tr2). split; [by apply Forall_app |].
    intros w. rewrite (bind_run m f w _ a (H1 w)), H2.
    by rewrite extend_extend.
  - exists (Raise e), tr1. split; [done |].
    intros w. by rewrite (bind_run_raise m f w _ e (H1 w)).
Qed.
End trace_only_facts.

Lemma trace_only_for_each {A : Type} (P : effect → Prop)
    (xs : list A) (body : A → M unit) :
  (∀ x, trace_only P (body x)) → trace_only P (for_each xs body).
Proof.
  intros Hbody. induction xs as [| x rest IH]; cbn [for_each].
  - apply trace_only_ret.
  - apply trace_only_bind; [apply Hbody | intros _; exact IH].
Qed.

(** Structural proof that a computation is trace-only; leaves the side
    conditions on emitted effects that [exact I] does not settle. *)
Ltac trace_only_tac :=
  repeat first
    [ apply trace_only_ret | apply trace_only_raise
    | apply trace_only_emit; try exact I
    | apply trace_only_bind; [| intros ?]
    | match goal with
      | |- trace_only _ (match ?x with _ => _ end) => destruct x
      end ].

(** ** Instrumentation keys and business keys (hooks) *)

Lemma built_tree_keys (ts : option MCPToolset) :
  declared_output_keys <$> built_tree ts
  = Some ["news_data"; "competitor_data"; "metrics_data"; "techstack_data";
          "lead_data"; "positioning_strategy"].
Proof. destruct ts; reflexivity. Qed.

Lemma start_time_key_not_output_key (ctx : CallbackContext) (k : string) :
  k ∈ ["news_data"; "competitor_data"; "metrics_data"; "techstack_data";
       "lead_data"; "positioning_strategy"] →
  start_time_key ctx ≠ k.
Proof.
  intros Hk Heq. unfold start_time_key in Heq.
  repeat (apply elem_of_cons in Hk as [-> | Hk]; [simpl in Heq; discriminate |]).
  by apply elem_of_nil in Hk.
Qed.

(** C10. [on_agent_start] stores its clock reading in the shared session
    state under "metrics:start_time:" ++ invocation_id ++ ":" ++ agent_name
    and nowhere else; that key differs from each of the six output keys
    declared in the tree of [build_agents] (which are also the values of
    [output_map]), so the value stored under any of those keys is the same
    before and after the hook. *)
Theorem on_agent_start_key_disjoint_from_output_keys
    (now : Z) (ctx : CallbackContext) (w : World) (ts : option MCPToolset) :
  let key := "metrics:start_time:" +:+ invocation_id ctx +:+ ":"
             +:+ agent_name ctx in
  let w' := (on_agent_start now ctx w).2 in
  (on_agent_start now ctx w).1 = Return tt
  ∧ state w' = <[key := VFloat now]> (state w)
  ∧ declared_output_keys <$> built_tree ts
    = Some ["news_data"; "competitor_data"; "metrics_data"; "techstack_data";
            "lead_data"; "positioning_strategy"]
  ∧ map snd output_map
    = ["news_data"; "competitor_data"; "metrics_data"; "techstack_data";
       "lead_data"; "positioning_strategy"]
  ∧ Forall (λ k, key ≠ k ∧ state w' !! k = state w !! k)
      ["news_data"; "competitor_data"; "metrics_data"; "techstack_data";
       "lead_data"; "positioning_strategy"].
Proof.
  intros key w'. split; [reflexivity |]. split; [reflexivity |].
  split; [apply built_tree_keys |]. split; [reflexivity |].
  apply Forall_forall. intros k Hk.
  assert (Hne : key ≠ k) by exact (start_time_key_not_output_key ctx k Hk).
  split; [exact Hne |].
  subst w'. cbn [on_agent_start]. unfold mbind, M_bind, state_set, emit.
  cbn [snd state]. apply lookup_insert_ne. exact Hne.
Qed.


(** [on_agent_end] may read the session state; it never changes it. *)
Lemma on_agent_end_observer (now : Z) (ctx : CallbackContext) :
  observer (on_agent_end now ctx).
Proof. unfold on_agent_end, elapsed, print. observer_tac. Qed.

Lemma observer_after_emit {B : Type} (e : effect) (f : unit → M B)
    (w : World) :
  observer (f tt) → In e (trace ((emit e ≫= f) w).2).
Proof.
  intros Hf. rewrite bind_emit. destruct (Hf (extend w [e])) as [tr ->].
  cbn [trace extend]. apply in_or_app. left. apply in_or_app. right.
  by left.
Qed.

(** C4, as the code has it. [on_agent_end] looks the start-time record up
    and uses it for the duration it logs, and it removes nothing: the
    session state after the end-hook equals the state before it, so after
    the hook pair the record written by [on_agent_start] is still there. *)
Theorem on_agent_end_reads_and_keeps_start_time
    (now1 now2 : Z) (ctx : CallbackContext) (w : World) :
  let w1 := (on_agent_start now1 ctx w).2 in
  let w2 := (on_agent_end now2 ctx w1).2 in
  state w2 = state w1
  ∧ state w2 !! start_time_key ctx = Some (VFloat now1)
  ∧ In (Log (InfoFinished (agent_name ctx)
               (if (now1 =? 0)%Z then None else Some (now2 - now1)%Z)))
       (trace w2).
Proof.
  intros w1 w2.
  assert (Hst : state w2 = state w1).
  { subst w2. destruct (on_agent_end_observer now2 ctx w1) as [tr ->].
    reflexivity. }
  assert (Hk : state w1 !! start_time_key ctx = Some (VFloat now1))
    by apply lookup_insert_eq.
  split; [exact Hst |]. split; [by rewrite Hst |].
  subst w2. unfold on_agent_end. rewrite bind_state_get, Hk.
  cbn [truthy]. unfold elapsed.
  destruct (now1 =? 0)%Z; cbn [negb]; cbv beta iota;
    rewrite ?bind_ret; cbv beta; rewrite ?bind_ret; cbv beta;
    (apply observer_after_emit; unfold print; observer_tac).
Qed.

(** C4, counterexample to the claim as written: after [on_agent_start] and
    then [on_agent_end] for invocation "e-1" of NewsResearcher, the
    start-time record is still present in the state. *)
Lemma on_agent_end_does_not_remove_start_time :
  let ctx := {| agent_name := "NewsResearcher"; invocation_id := "e-1" |} in
  let w1 := (on_agent_start 100 ctx world0).2 in
  (on_agent_end 105 ctx w1).1 = Return tt
  ∧ state (on_agent_end 105 ctx w1).2
      !! "metrics:start_time:e-1:NewsResearcher" = Some (VFloat 100)
  ∧ state (on_agent_end 105 ctx w1).2
      !! "metrics:start_time:e-1:NewsResearcher" ≠ None.
Proof. vm_compute. repeat split; discriminate. Qed.

(** ** The tool connection and the agent tree *)

(** The URL [create_exa_toolset] builds for a given key. *)
Lemma create_exa_toolset_some (environ : gmap string string) (key : string)
    (w : World) :
  environ !! "EXA_API_KEY" = Some key → key ≠ "" →
  let ts := {| connection_url :=
                 "https://mcp.exa.ai/mcp?exaApiKey=" +:+ key
                 +:+ "&enabledTools="
                 +:+ Py.quote (Py.json_dumps enabled_tools) |} in
  create_exa_toolset environ w = (Return (Some ts), extend w [NewToolset ts]).
Proof.
  intros Hkey Hne ts. unfold create_exa_toolset, environ_get.
  rewrite Hkey. cbn [default from_option id].
  destruct key as [| c key']; [done |]. reflexivity.
Qed.

Lemma create_exa_toolset_none (environ : gmap string string) (w : World) :
  environ !! "EXA_API_KEY" = None ∨ environ !! "EXA_API_KEY" = Some "" →
  create_exa_toolset environ w = (Return None, extend w [Log WarnExaKeyNotSet]).
Proof.
  intros Hkey. unfold create_exa_toolset, environ_get.
  destruct Hkey as [-> | ->]; reflexivity.
Qed.

(** [build_agents] runs no check and touches nothing: it returns a tree. *)
Lemma build_agents_returns (ts : option MCPToolset) (w : World) :
  ∃ tree, build_agents ts w = (Return tree, w)
          ∧ built_tree ts = Some tree
          ∧ name_of tree = "LeadResearchSystem".
Proof. destruct ts; eexists; repeat split; reflexivity. Qed.

(** C9. With a non-empty EXA_API_KEY, [create_exa_toolset] returns a tool
    set whose URL is "https://mcp.exa.ai/mcp?exaApiKey=" ++ key ++
    "&enabledTools=" ++ quote(json.dumps(["linkedin_search",
    "web_search_exa"])): the key is embedded as it is, and the allow-list,
    which json.dumps writes as the two quoted names separated by a comma and
    a space inside brackets, is URL-escaped to
    %5B%22linkedin_search%22%2C%20%22web_search_exa%22%5D. *)
Theorem create_exa_toolset_url (environ : gmap string string) (key : string)
    (w : World) :
  environ !! "EXA_API_KEY" = Some key → key ≠ "" →
  ∃ ts,
    (create_exa_toolset environ w).1 = Return (Some ts)
    ∧ connection_url ts
      = "https://mcp.exa.ai/mcp?exaApiKey=" +:+ key +:+ "&enabledTools="
        +:+ Py.quote (Py.json_dumps ["linkedin_search"; "web_search_exa"])
    ∧ Py.json_dumps ["linkedin_search"; "web_search_exa"]
      = "[" +:+ Py.dquote +:+ "linkedin_search" +:+ Py.dquote +:+ ", "
        +:+ Py.dquote +:+ "web_search_exa" +:+ Py.dquote +:+ "]"
    ∧ connection_url ts
      = "https://mcp.exa.ai/mcp?exaApiKey=" +:+ key
        +:+ "&enabledTools=%5B%22linkedin_search%22%2C%20%22web_search_exa%22%5D".
Proof.
  intros Hkey Hne. eexists. split.
  - by rewrite (create_exa_toolset_some environ key w Hkey Hne).
  - cbn [connection_url]. repeat split; reflexivity.
Qed.

Lemma create_exa_toolset_url_witness :
  let environ : gmap string string := {[ "EXA_API_KEY" := "k-123" ]} in
  environ !! "EXA_API_KEY" = Some "k-123" ∧ "k-123" ≠ ""
  ∧ ∃ ts,
      (create_exa_toolset environ world0).1 = Return (Some ts)
      ∧ connection_url ts
        = "https://mcp.exa.ai/mcp?exaApiKey=k-123&enabledTools=%5B%22linkedin_search%22%2C%20%22web_search_exa%22%5D".
Proof.
  intros environ.
  assert (Hkey : environ !! "EXA_API_KEY" = Some "k-123") by reflexivity.
  assert (Hne : "k-123" ≠ "") by discriminate.
  split; [exact Hkey |]. split; [exact Hne |].
  destruct (create_exa_toolset_url environ "k-123" world0 Hkey Hne)
    as (ts & Hts & _ & _ & Hurl).
  exists ts. split; [exact Hts | exact Hurl].
Defined.

(** X17. [build_agents] returns a tree for either argument, and the one
    Parallel Group of that tree has five children declaring the output keys
    news_data, competitor_data, metrics_data, techstack_data and lead_data,
    pairwise distinct: no two siblings of the group write the same key of
    the session state. *)
Theorem build_agents_parallel_keys_distinct
    (ts : option MCPToolset) (w : World) :
  ∃ tree,
    build_agents ts w = (Return tree, w)
    ∧ map sibling_output_keys (parallel_groups tree)
      = [["news_data"; "competitor_data"; "metrics_data"; "techstack_data";
          "lead_data"]]
    ∧ Forall (λ g, NoDup (sibling_output_keys g)
                   ∧ has_duplicate (sibling_output_keys g) = false)
        (parallel_groups tree).
Proof.
  destruct ts; eexists; (split; [reflexivity |]); (split; [reflexivity |]);
    (apply Forall_cons; split; [| constructor]);
    (split; [| reflexivity]);
    cbn; apply (bool_decide_unpack _); vm_compute; reflexivity.
Qed.

(** ** The run driver *)

Lemma trace_only_run {A : Type} (P : effect → Prop) (m : M A) :
  trace_only P m →
  (∀ w, m w = (result_of m, extend w (effects_of m)))
  ∧ Forall P (effects_of m).
Proof.
  intros (r & tr & HP & H). unfold result_of, effects_of.
  rewrite (H world0). cbn. split; [exact H | exact HP].
Qed.

Lemma close_count_app (tr1 tr2 : list effect) :
  close_count (tr1 ++ tr2) = close_count tr1 + close_count tr2.
Proof.
  induction tr1 as [| e tr1 IH]; [reflexivity |].
  destruct e; cbn; rewrite IH; reflexivity.
Qed.

Lemma created_count_app (tr1 tr2 : list effect) :
  created_count (tr1 ++ tr2) = created_count tr1 + created_count tr2.
Proof.
  induction tr1 as [| e tr1 IH]; [reflexivity |].
  destruct e; cbn; rewrite IH; reflexivity.
Qed.

Lemma io_counts (tr : list effect) :
  Forall is_io tr → close_count tr = 0 ∧ created_count tr = 0.
Proof.
  induction 1 as [| e tr He _ [IH1 IH2]]; [done |].
  destruct e; cbn in *; done.
Qed.

Lemma handle_event_trace_only (ext : Externals) (event : Event) :
  trace_only is_io (handle_event ext event).
Proof.
  unfold handle_event, first_part_text, write_text_file, print.
  trace_only_tac.
Qed.

Lemma event_loop_trace_only (ext : Externals) :
  trace_only is_io (event_loop ext).
Proof.
  unfold event_loop. apply trace_only_bind.
  - apply trace_only_for_each, handle_event_trace_only.
  - intros _. trace_only_tac.
Qed.

Lemma event_loop_run (ext : Externals) (w : World) :
  event_loop ext w
  = (result_of (event_loop ext), extend w (effects_of (event_loop ext))).
Proof. apply (trace_only_run is_io), event_loop_trace_only. Qed.

Lemma cleanup_some (ext : Externals) (ts : MCPToolset) (w : World) :
  cleanup ext (Some ts) w
  = (match close_error ext with
     | Some (PyBaseException cls msg) => Raise (PyBaseException cls msg)
     | _ => Return tt
     end, extend w (cleanup_effects ext ts)).
Proof.
  unfold cleanup, cleanup_effects, toolset_close, try_except_Exception, print.
  rewrite !bind_emit.
  destruct (close_error ext) as [[cls msg | cls msg] |]; cbn;
    unfold emit, extend; cbn; rewrite <- ?app_assoc; reflexivity.
Qed.

(** Without the model credential [main] prints the error and returns. *)
Lemma main_aborts (environ : gmap string string) (ext : Externals)
    (w : World) :
  model_credential_present environ = false →
  main environ ext w
  = (Return tt, extend w [Print "Error: GOOGLE_API_KEY not found."]).
Proof.
  unfold model_credential_present, main. intros H.
  apply negb_false_iff in H. rewrite H. reflexivity.
Qed.

(** A started run with a tool connection: start-up, the event loop, then
    the [finally] block; only a [BaseException] out of [close] changes the
    outcome of the loop. *)
Lemma main_with_toolset (environ : gmap string string) (ext : Externals)
    (w : World) (key : string) :
  model_credential_present environ = true →
  environ !! "EXA_API_KEY" = Some key → key ≠ "" →
  let ts := {| connection_url :=
                 "https://mcp.exa.ai/mcp?exaApiKey=" +:+ key
                 +:+ "&enabledTools="
                 +:+ Py.quote (Py.json_dumps enabled_tools) |} in
  main environ ext w
  = (match close_error ext with
     | Some (PyBaseException cls msg) => Raise (PyBaseException cls msg)
     | _ => result_of (event_loop ext)
     end,
     extend w (startup_effects [NewToolset ts]
               ++ effects_of (event_loop ext) ++ cleanup_effects ext ts)).
Proof.
  intros Hcred Hkey Hne ts. unfold model_credential_present in Hcred.
  apply negb_true_iff in Hcred. unfold main. rewrite Hcred.
  rewrite bind_emit. cbv beta.
  rewrite (bind_run _ _ _ _ _ (create_exa_toolset_some environ key _ Hkey Hne)).
  fold ts.
  destruct (build_agents_returns (Some ts)
              (extend (extend w [CreateSession APP_NAME USER_ID SESSION_ID])
                 [NewToolset ts])) as (tree & Hb & _ & Hname).
  rewrite (bind_run _ _ _ _ _ Hb), Hname. unfold print.
  do 4 (rewrite bind_emit; cbv beta zeta).
  unfold try_finally. rewrite bind_emit. cbv beta.
  rewrite event_loop_run, cleanup_some, !extend_extend.
  unfold startup_effects.
  destruct (close_error ext) as [[cls msg | cls msg] |];
    rewrite <- ?app_assoc; reflexivity.
Qed.

(** A started run without a tool connection: the [finally] block has
    nothing to close and the outcome is that of the event loop. *)
Lemma main_without_toolset (environ : gmap string string) (ext : Externals)
    (w : World) :
  model_credential_present environ = true →
  environ !! "EXA_API_KEY" = None ∨ environ !! "EXA_API_KEY" = Some "" →
  main environ ext w
  = (result_of (event_loop ext),
     extend w (startup_effects [Log WarnExaKeyNotSet]
               ++ effects_of (event_loop ext))).
Proof.
  intros Hcred Hkey. unfold model_credential_present in Hcred.
  apply negb_true_iff in Hcred. unfold main. rewrite Hcred.
  rewrite bind_emit. cbv beta.
  rewrite (bind_run _ _ _ _ _ (create_exa_toolset_none environ _ Hkey)).
  destruct (build_agents_returns None
              (extend (extend w [CreateSession APP_NAME USER_ID SESSION_ID])
                 [Log WarnExaKeyNotSet])) as (tree & Hb & _ & Hname).
  rewrite (bind_run _ _ _ _ _ Hb), Hname. unfold print.
  do 4 (rewrite bind_emit; cbv beta zeta).
  unfold try_finally. rewrite bind_emit. cbv beta.
  rewrite event_loop_run. unfold cleanup. cbn [mret M_ret].
  rewrite !extend_extend. unfold startup_effects.
  rewrite <- ?app_assoc. reflexivity.
Qed.

(** C6. When neither GOOGLE_API_KEY nor GOOGLE_GENAI_USE_VERTEXAI is set,
    [main] prints "Error: GOOGLE_API_KEY not found." and returns: that line
    is the only effect of the run, so no session, tool connection or runner
    (hence no agent tree handed to one) is created and no stage starts. *)
Theorem main_aborts_without_model_credential
    (environ : gmap string string) (ext : Externals) (w : World) :
  environ !! "GOOGLE_API_KEY" = None →
  environ !! "GOOGLE_GENAI_USE_VERTEXAI" = None →
  main environ ext w
  = (Return tt, extend w [Print "Error: GOOGLE_API_KEY not found."])
  ∧ ∃ new, (main environ ext w).2 = extend w new
           ∧ stdout new = ["Error: GOOGLE_API_KEY not found."]
           ∧ existsb is_construction new = false
           ∧ created_count new = 0.
Proof.
  intros H1 H2.
  assert (Hc : model_credential_present environ = false)
    by (unfold model_credential_present, env_unset; by rewrite H1, H2).
  rewrite (main_aborts environ ext w Hc). split; [reflexivity |].
  eexists. split; [reflexivity |]. repeat split.
Qed.

Lemma main_aborts_without_model_credential_witness :
  (∅ : gmap string string) !! "GOOGLE_API_KEY" = None
  ∧ (∅ : gmap string string) !! "GOOGLE_GENAI_USE_VERTEXAI" = None
  ∧ main ∅ completed_run world0
    = (Return tt, extend world0 [Print "Error: GOOGLE_API_KEY not found."]).
Proof.
  split; [reflexivity |]. split; [reflexivity |].
  apply (main_aborts_without_model_credential ∅ completed_run world0);
    reflexivity.
Defined.

(** C1. In a run that starts (the model credential is present) and creates
    the tool connection (EXA_API_KEY is non-empty), [close] is invoked
    exactly once on that connection before [main] gives control back,
    however the event loop ends: stream exhausted, an exception propagated
    from a stage or raised while handling an event, or a cancellation; and
    whether or not [close] itself raises. *)
Theorem close_invoked_exactly_once
    (environ : gmap string string) (ext : Externals) (w : World)
    (key : string) :
  model_credential_present environ = true →
  environ !! "EXA_API_KEY" = Some key → key ≠ "" →
  ∃ ts new,
    (main environ ext w).2 = extend w new
    ∧ created_count new = 1 ∧ In (NewToolset ts) new
    ∧ close_count new = 1 ∧ In (ToolsetClose ts) new.
Proof.
  intros Hcred Hkey Hne.
  rewrite (main_with_toolset environ ext w key Hcred Hkey Hne).
  destruct (trace_only_run is_io _ (event_loop_trace_only ext)) as [_ Hio].
  apply io_counts in Hio as [Hclose Hcreated].
  eexists. eexists. split; [reflexivity |].
  rewrite !created_count_app, !close_count_app, Hclose, Hcreated.
  unfold cleanup_effects.
  repeat split.
  - by destruct (close_error ext) as [[] |].
  - cbn. right. left. reflexivity.
  - by destruct (close_error ext) as [[] |].
  - apply in_or_app. right. apply in_or_app. right. cbn. right. left.
    reflexivity.
Qed.

Lemma close_invoked_exactly_once_witness :
  model_credential_present full_environ = true
  ∧ full_environ !! "EXA_API_KEY" = Some "k-123" ∧ "k-123" ≠ ""
  ∧ ∃ ts new,
      (main full_environ failed_run world0).2 = extend world0 new
      ∧ created_count new = 1 ∧ In (NewToolset ts) new
      ∧ close_count new = 1 ∧ In (ToolsetClose ts) new.
Proof.
  split; [reflexivity |]. split; [reflexivity |]. split; [discriminate |].
  apply (close_invoked_exactly_once full_environ failed_run world0 "k-123");
    [reflexivity | reflexivity | discriminate].
Defined.

(** The three ways a run can end, on the sample runs. *)
Example close_count_completed_run :
  close_count (trace (main full_environ completed_run world0).2) = 1.
Proof. reflexivity. Qed.

Example close_count_failed_run :
  (main full_environ failed_run world0).1
  = Raise (PyException "RuntimeError" "model call failed")
  ∧ close_count (trace (main full_environ failed_run world0).2) = 1.
Proof. split; reflexivity. Qed.

Example close_count_interrupted_run :
  (main full_environ interrupted_run world0).1
  = Raise (PyBaseException "CancelledError" "")
  ∧ close_count (trace (main full_environ interrupted_run world0).2) = 1.
Proof. split; reflexivity. Qed.

(** C7, as the code has it. When [close] raises an instance of
    [Exception] during teardown, the [finally] block logs it as a warning
    and returns normally: the outcome of [main] is the outcome of the event
    loop, be it a normal return or the error that ended the loop, and the
    warning with the error text is the last effect of the run. *)
Theorem cleanup_error_logged_and_swallowed
    (environ : gmap string string) (ext : Externals) (w : World)
    (key cls msg : string) :
  model_credential_present environ = true →
  environ !! "EXA_API_KEY" = Some key → key ≠ "" →
  close_error ext = Some (PyException cls msg) →
  (main environ ext w).1 = result_of (event_loop ext)
  ∧ last (trace (main environ ext w).2) = Some (Log (WarnCleanup msg))
  ∧ ∀ ts w', (cleanup ext (Some ts) w').1 = Return tt.
Proof.
  intros Hcred Hkey Hne Hclose.
  rewrite (main_with_toolset environ ext w key Hcred Hkey Hne).
  unfold cleanup_effects. rewrite Hclose. cbn [fst snd]. split; [done |].
  split.
  - cbn [trace extend]. rewrite !app_assoc. apply last_snoc.
  - intros ts w'. by rewrite cleanup_some, Hclose.
Qed.

Lemma cleanup_error_logged_and_swallowed_witness :
  model_credential_present full_environ = true
  ∧ full_environ !! "EXA_API_KEY" = Some "k-123" ∧ "k-123" ≠ ""
  ∧ close_error failed_run = Some (PyException "RuntimeError" "cancel scope")
  ∧ (main full_environ failed_run world0).1
    = result_of (event_loop failed_run)
  ∧ last (trace (main full_environ failed_run world0).2)
    = Some (Log (WarnCleanup "cancel scope")).
Proof.
  split; [reflexivity |]. split; [reflexivity |]. split; [discriminate |].
  split; [reflexivity |].
  destruct (cleanup_error_logged_and_swallowed full_environ failed_run world0
              "k-123" "RuntimeError" "cancel scope")
    as (Hres & Hlast & _); [reflexivity | reflexivity | discriminate
                            | reflexivity |].
  split; [exact Hres | exact Hlast].
Defined.

(** C7, counterexample to the claim as written: a stage fails with
    RuntimeError and, while [close] is awaited, the task is cancelled.
    [except Exception] (line 323) does not catch the CancelledError:
    nothing is logged, and [main] ends with the CancelledError in place of
    the RuntimeError that ended the run. *)
Lemma cancelled_close_replaces_run_error :
  close_error cancelled_close_run = Some (PyBaseException "CancelledError" "")
  ∧ result_of (event_loop cancelled_close_run)
    = Raise (PyException "RuntimeError" "model call failed")
  ∧ (main full_environ cancelled_close_run world0).1
    = Raise (PyBaseException "CancelledError" "")
  ∧ (main full_environ cancelled_close_run world0).1
    ≠ result_of (event_loop cancelled_close_run)
  ∧ last (trace (main full_environ cancelled_close_run world0).2)
    = Some (ToolsetClose
              {| connection_url :=
                   "https://mcp.exa.ai/mcp?exaApiKey=k-123&enabledTools=%5B%22linkedin_search%22%2C%20%22web_search_exa%22%5D" |}).
Proof.
  split; [reflexivity |]. split; [reflexivity |]. split; [reflexivity |].
  split; [| reflexivity].
  intros H. vm_compute in H. discriminate H.
Qed.

(** What [except Exception] does not catch, in general: an exception
    outside the [Exception] hierarchy raised by [close] leaves [main] as
    that exception. *)
Lemma cleanup_does_not_catch_cancellation
    (environ : gmap string string) (ext : Externals) (w : World)
    (key cls msg : string) :
  model_credential_present environ = true →
  environ !! "EXA_API_KEY" = Some key → key ≠ "" →
  close_error ext = Some (PyBaseException cls msg) →
  (main environ ext w).1 = Raise (PyBaseException cls msg).
Proof.
  intros Hcred Hkey Hne Hclose.
  rewrite (main_with_toolset environ ext w key Hcred Hkey Hne).
  by rewrite Hclose.
Qed.

(** C2. When EXA_API_KEY is absent or empty, [create_exa_toolset] returns
    [None] (after a warning), the LeadResearcher of the tree built for
    [None] carries the one tool [google_search], and in [main] nothing is
    created or closed: the absent key raises nothing, the outcome of a
    started run is the outcome of its event loop. *)
Theorem missing_exa_key_degrades
    (environ : gmap string string) (ext : Externals) (w : World) :
  environ !! "EXA_API_KEY" = None ∨ environ !! "EXA_API_KEY" = Some "" →
  create_exa_toolset environ w
  = (Return None, extend w [Log WarnExaKeyNotSet])
  ∧ tools <$> (built_tree None ≫= find_llm "LeadResearcher")
    = Some [google_search]
  ∧ (main environ ext w).1
    = (if model_credential_present environ
       then result_of (event_loop ext) else Return tt)
  ∧ ∃ new, (main environ ext w).2 = extend w new
           ∧ created_count new = 0 ∧ close_count new = 0.
Proof.
  intros Hkey. split; [by apply create_exa_toolset_none |].
  split; [reflexivity |].
  destruct (model_credential_present environ) eqn:Hcred.
  - rewrite (main_without_toolset environ ext w Hcred Hkey).
    split; [reflexivity |]. eexists. split; [reflexivity |].
    destruct (trace_only_run is_io _ (event_loop_trace_only ext)) as [_ Hio].
    apply io_counts in Hio as [Hclose Hcreated].
    rewrite !created_count_app, !close_count_app, Hclose, Hcreated.
    split; reflexivity.
  - rewrite (main_aborts environ ext w Hcred).
    split; [reflexivity |]. eexists. split; [reflexivity |].
    split; reflexivity.
Qed.

Lemma missing_exa_key_degrades_witness :
  (model_only_environ !! "EXA_API_KEY" = None
   ∨ model_only_environ !! "EXA_API_KEY" = Some "")
  ∧ (main model_only_environ completed_run world0).1 = Return tt
  ∧ close_count (trace (main model_only_environ completed_run world0).2) = 0.
Proof.
  assert (Hkey : model_only_environ !! "EXA_API_KEY" = None
                 ∨ model_only_environ !! "EXA_API_KEY" = Some "")
    by (left; reflexivity).
  split; [exact Hkey |].
  destruct (missing_exa_key_degrades model_only_environ completed_run world0
              Hkey) as (_ & _ & Hres & new & Hnew & _ & Hclose).
  split; [rewrite Hres; reflexivity |].
  rewrite Hnew. exact Hclose.
Defined.

(** ** The final output *)

(** An event that is not a final output of the outreach writer prints at
    most the strategy notice; handling it never raises. *)
Lemma handle_event_other (ext : Externals) (x : Event) :
  is_final_output x = false →
  ∃ tr, Forall is_print tr
        ∧ ∀ w, handle_event ext x w = (Return tt, extend w tr).
Proof.
  unfold is_final_output, handle_event. intros Hx.
  destruct (is_final_response x), (content x) as [c |];
    cbn in Hx; try rewrite Hx;
    try (exists []; split; [constructor |];
         intros w; by rewrite extend_nil).
  destruct (String.eqb (author x) "PositioningStrategist").
  - exists [Print (nl +:+ "[DEBUG] Positioning Strategy Generated..." +:+ nl)].
    split; [by repeat constructor |]. intros w. reflexivity.
  - exists []. split; [constructor |]. intros w. by rewrite extend_nil.
Qed.

(** Handling a final output of the outreach writer, when it returns
    normally: the text exists, is printed, and is written to the freshly
    truncated file sales_outreach.md; the rest of the output is prints. *)
Lemma handle_event_final (ext : Externals) (x : Event) (w wx : World) :
  is_final_output x = true →
  handle_event ext x w = (Return tt, wx) →
  ∃ t tr1 tr2,
    final_output_text x = Some t
    ∧ wx = extend w (tr1 ++ [Print t; FileOpenW "sales_outreach.md";
                             FileWrite "sales_outreach.md" t] ++ tr2)
    ∧ Forall is_print tr2.
Proof.
  unfold is_final_output, handle_event, final_output_text. intros Hx Hrun.
  destruct (is_final_response x); [| discriminate Hx].
  destruct (content x) as [c |]; [| discriminate Hx].
  cbn in Hx. rewrite Hx in Hrun. unfold first_part_text in Hrun.
  destruct (parts c) as [[| p ps] |];
    try (rewrite bind_raise in Hrun; discriminate Hrun).
  rewrite bind_ret in Hrun. unfold print, write_text_file in Hrun.
  do 4 (rewrite bind_emit in Hrun; cbv beta zeta in Hrun).
  destruct (open_error ext "sales_outreach.md");
    [rewrite bind_raise in Hrun; discriminate Hrun |].
  rewrite bind_assoc, bind_emit in Hrun. cbv beta in Hrun.
  destruct (text p) as [t |];
    [| rewrite bind_raise in Hrun; discriminate Hrun].
  rewrite bind_emit, emit_run in Hrun.
  rewrite !extend_extend in Hrun. injection Hrun as <-.
  exists t. eexists [_; _; _]. eexists [_].
  split; [reflexivity |]. split; [reflexivity |]. by repeat constructor.
Qed.

Lemma for_each_cons {A : Type} (x : A) (rest : list A) (body : A → M unit)
    (w : World) :
  for_each (x :: rest) body w
  = match body x w with
    | (Return _, w1) => for_each rest body w1
    | (Raise e, w1) => (Raise e, w1)
    end.
Proof. reflexivity. Qed.

(** After the last final output only prints follow. *)
Lemma for_each_others (ext : Externals) (evs : list Event) :
  last_final_output evs = None →
  ∃ tr, Forall is_print tr
        ∧ ∀ w, for_each evs (handle_event ext) w = (Return tt, extend w tr).
Proof.
  induction evs as [| x rest IH]; cbn [last_final_output]; intros Hlast.
  - exists []. split; [constructor |]. intros w. cbn. by rewrite extend_nil.
  - destruct (last_final_output rest); [discriminate Hlast |].
    destruct (is_final_output x) eqn:Hx; [discriminate Hlast |].
    destruct (handle_event_other ext x Hx) as (tr1 & Hp1 & H1).
    destruct (IH eq_refl) as (tr2 & Hp2 & H2).
    exists (tr1 ++ tr2). split; [by apply Forall_app |].
    intros w. by rewrite for_each_cons, H1, H2, extend_extend.
Qed.

Lemma for_each_saves (ext : Externals) (evs : list Event) :
  ∀ (w0 w1 : World) (e : Event),
    for_each evs (handle_event ext) w0 = (Return tt, w1) →
    last_final_output evs = Some e →
    ∃ t tr1 tr2,
      final_output_text e = Some t
      ∧ w1 = extend w0 (tr1 ++ [Print t; FileOpenW "sales_outreach.md";
                                FileWrite "sales_outreach.md" t] ++ tr2)
      ∧ Forall is_print tr2.
Proof.
  induction evs as [| x rest IH]; intros w0 w1 e Hrun Hlast;
    [discriminate Hlast |].
  rewrite for_each_cons in Hrun. cbn [last_final_output] in Hlast.
  destruct (handle_event ext x w0) as [[[] | ex] wx] eqn:Hx;
    [| discriminate Hrun].
  destruct (last_final_output rest) as [e' |] eqn:Hrest.
  - injection Hlast as ->.
    destruct (IH wx w1 e Hrun eq_refl) as (t & tr1 & tr2 & Ht & -> & Hp).
    destruct (handle_event_trace_only ext x) as (r & trx & _ & Htx).
    rewrite Htx in Hx. injection Hx as _ <-.
    exists t, (trx ++ tr1), tr2. split; [exact Ht |].
    split; [| exact Hp]. by rewrite extend_extend, <- app_assoc.
  - destruct (is_final_output x) eqn:Hfin; [| discriminate Hlast].
    injection Hlast as <-.
    destruct (handle_event_final ext x w0 wx Hfin Hx)
      as (t & tr1 & tr2 & Ht & -> & Hp).
    destruct (for_each_others ext rest Hrest) as (tr3 & Hp3 & H3).
    rewrite H3 in Hrun. injection Hrun as <-.
    exists t, tr1, (tr2 ++ tr3). split; [exact Ht |].
    split; [| by apply Forall_app].
    rewrite extend_extend. f_equal. rewrite <- !app_assoc. reflexivity.
Qed.

(** The event loop of a run that returns normally. *)
Lemma event_loop_saves (ext : Externals) (e : Event) :
  result_of (event_loop ext) = Return tt →
  last_final_output (events ext) = Some e →
  ∃ t tr1 tr2,
    final_output_text e = Some t
    ∧ effects_of (event_loop ext)
      = tr1 ++ [Print t; FileOpenW "sales_outreach.md";
                FileWrite "sales_outreach.md" t] ++ tr2
    ∧ Forall is_print tr2.
Proof.
  unfold result_of, effects_of, event_loop. intros Hres Hlast.
  unfold mbind, M_bind in *.
  destruct (for_each (events ext) (handle_event ext) world0)
    as [[[] | ex] w1] eqn:Hloop; [| discriminate Hres].
  destruct (for_each_saves ext _ _ _ _ Hloop Hlast)
    as (t & tr1 & tr2 & Ht & -> & Hp).
  destruct (stream_end ext); [discriminate Hres |].
  exists t, tr1, tr2. repeat split; [exact Ht | exact Hp].
Qed.

Lemma files_after_keeps (fs : gmap string string) (tr : list effect) :
  Forall keeps_files tr → files_after fs tr = fs.
Proof.
  intros H. revert fs. induction H as [| e tr He _ IH]; intros fs;
    [reflexivity |].
  cbn. rewrite He. apply IH.
Qed.

Lemma files_after_saved (fs : gmap string string) (tr1 tr2 : list effect)
    (path t : string) :
  Forall keeps_files tr2 →
  files_after fs (tr1 ++ [FileOpenW path; FileWrite path t] ++ tr2) !! path
  = Some t.
Proof.
  intros H. unfold files_after. rewrite !fold_left_app.
  fold (files_after (fold_left fs_step [FileOpenW path; FileWrite path t]
                       (fold_left fs_step tr1 fs)) tr2).
  rewrite (files_after_keeps _ tr2 H). cbn.
  rewrite !lookup_insert_eq. reflexivity.
Qed.

Lemma is_print_keeps_files (tr : list effect) :
  Forall is_print tr → Forall keeps_files tr.
Proof.
  intros H. eapply Forall_impl; [exact H |]. intros e He fs. by destruct e.
Qed.

Lemma cleanup_effects_keep_files (ext : Externals) (ts : MCPToolset) :
  Forall keeps_files (cleanup_effects ext ts).
Proof.
  unfold cleanup_effects.
  destruct (close_error ext) as [[] |]; repeat constructor.
Qed.

Lemma stdout_In (t : string) (tr : list effect) :
  In (Print t) tr → In t (stdout tr).
Proof.
  intros H. apply list_elem_of_In, list_elem_of_omap.
  exists (Print t). split; [by apply list_elem_of_In | reflexivity].
Qed.

(** A started run that returns normally, seen from its last final output:
    the effects of the run around the three that print and save it. *)
Lemma main_saves (environ : gmap string string) (ext : Externals)
    (w : World) (e : Event) :
  model_credential_present environ = true →
  (main environ ext w).1 = Return tt →
  last_final_output (events ext) = Some e →
  ∃ t tr1 tr2,
    final_output_text e = Some t
    ∧ trace (main environ ext w).2
      = tr1 ++ [Print t] ++ [FileOpenW "sales_outreach.md";
                             FileWrite "sales_outreach.md" t] ++ tr2
    ∧ Forall keeps_files tr2.
Proof.
  intros Hcred Hres Hlast.
  destruct (environ !! "EXA_API_KEY") as [[| c key] |] eqn:Hkey.
  - rewrite (main_without_toolset environ ext w Hcred (or_intror Hkey)) in *.
    cbn [fst snd] in *.
    destruct (event_loop_saves ext e Hres Hlast)
      as (t & tr1 & tr2 & Ht & -> & Hp).
    exists t, (trace w ++ startup_effects [Log WarnExaKeyNotSet] ++ tr1), tr2.
    split; [exact Ht |]. split; [| by apply is_print_keeps_files].
    cbn [trace extend]. by rewrite <- !app_assoc.
  - assert (Hne : String c key ≠ "") by discriminate.
    rewrite (main_with_toolset environ ext w _ Hcred Hkey Hne) in *.
    cbn [fst snd] in *.
    assert (Hloop : result_of (event_loop ext) = Return tt)
      by (destruct (close_error ext) as [[] |]; done).
    destruct (event_loop_saves ext e Hloop Hlast)
      as (t & tr1 & tr2 & Ht & -> & Hp).
    eexists t, (trace w ++ startup_effects [NewToolset _] ++ tr1),
      (tr2 ++ cleanup_effects ext _).
    split; [exact Ht |]. split.
    + cbn [trace extend]. by rewrite <- !app_assoc.
    + apply Forall_app. split; [by apply is_print_keeps_files |].
      apply cleanup_effects_keep_files.
  - rewrite (main_without_toolset environ ext w Hcred (or_introl Hkey)) in *.
    cbn [fst snd] in *.
    destruct (event_loop_saves ext e Hres Hlast)
      as (t & tr1 & tr2 & Ht & -> & Hp).
    exists t, (trace w ++ startup_effects [Log WarnExaKeyNotSet] ++ tr1), tr2.
    split; [exact Ht |]. split; [| by apply is_print_keeps_files].
    cbn [trace extend]. by rewrite <- !app_assoc.
Qed.

(** C8. In a run that starts and returns normally, the text of the final
    output (the first part of the last final response with content that the
    OutreachWriter authored) is printed on standard output and, whatever
    the files held before, the file "sales_outreach.md" holds exactly that
    text when [main] returns. *)
Theorem final_output_printed_and_saved
    (environ : gmap string string) (ext : Externals) (w : World)
    (fs : gmap string string) (e : Event) :
  model_credential_present environ = true →
  (main environ ext w).1 = Return tt →
  last_final_output (events ext) = Some e →
  ∃ t, final_output_text e = Some t
       ∧ In t (stdout (trace (main environ ext w).2))
       ∧ files_after fs (trace (main environ ext w).2) !! "sales_outreach.md"
         = Some t.
Proof.
  intros Hcred Hres Hlast.
  destruct (main_saves environ ext w e Hcred Hres Hlast)
    as (t & tr1 & tr2 & Ht & -> & Hkeep).
  exists t. split; [exact Ht |]. split.
  - apply stdout_In, in_or_app. right. by left.
  - rewrite app_assoc. by apply files_after_saved.
Qed.

Lemma final_output_printed_and_saved_witness :
  model_credential_present full_environ = true
  ∧ (main full_environ completed_run world0).1 = Return tt
  ∧ last_final_output (events completed_run) = Some outreach_event
  ∧ ∃ t, final_output_text outreach_event = Some t
         ∧ In t (stdout (trace (main full_environ completed_run world0).2))
         ∧ files_after ∅ (trace (main full_environ completed_run world0).2)
             !! "sales_outreach.md" = Some t.
Proof.
  split; [reflexivity |]. split; [reflexivity |]. split; [reflexivity |].
  apply (final_output_printed_and_saved full_environ completed_run world0 ∅
           outreach_event); reflexivity.
Defined.

(** The sample run that completes: what is printed and what is saved. *)
Example completed_run_saves :
  files_after ∅ (trace (main full_environ completed_run world0).2)
    !! "sales_outreach.md" = Some "Hi Carlos"
  ∧ last (stdout (trace (main full_environ completed_run world0).2))
    = Some (nl +:+ "Closing Exa toolset connection...")
  ∧ In (nl +:+ "✅ Saved outreach draft to: /home/rep/sales_outreach.md")
       (stdout (trace (main full_environ completed_run world0).2)).
Proof.
  split; [reflexivity |]. split; [reflexivity |].
  vm_compute. tauto.
Qed.

(** * Further properties *)

(** ** Computations that never raise *)

Section never_raises_facts.
Context {A B : Type}.

Lemma never_raises_ret (a : A) : never_raises (mret a : M A).
Proof. intros w. by exists a. Qed.

Lemma never_raises_emit (e : effect) : never_raises (emit e).
Proof. intros w. by exists tt. Qed.

Lemma never_raises_state_get (k : string) : never_raises (state_get k).
Proof. intros w. by eexists. Qed.

Lemma never_raises_bind (m : M A) (f : A → M B) :
  never_raises m → (∀ a, never_raises (f a)) → never_raises (m ≫= f).
Proof.
  intros Hm Hf w. destruct (Hm w) as [a Ha]. unfold mbind, M_bind.
  destruct (m w) as [[a' | e] w1]; cbn in Ha; [| discriminate Ha].
  apply Hf.
Qed.
End never_raises_facts.

Ltac never_raises_tac :=
  repeat first
    [ apply never_raises_ret | apply never_raises_emit
    | apply never_raises_state_get
    | apply never_raises_bind; [| intros ?]
    | match goal with
      | |- never_raises (match ?x with _ => _ end) => destruct x
      end ].

Lemma bind_state_set {B : Type} (k : string) (v : value) (f : unit → M B)
    (w : World) :
  (state_set k v ≫= f) w
  = f tt {| state := <[k := v]> (state w); trace := trace w |}.
Proof. reflexivity. Qed.

Lemma returns_after_emit (e : effect) (f : unit → M unit) (w : World) :
  never_raises (f tt) → ((emit e ≫= f) w).1 = Return tt.
Proof.
  intros Hf. rewrite bind_emit. destruct (Hf (extend w [e])) as [[] ->].
  reflexivity.
Qed.

(** ** The end-hook and the start record *)

Lemma on_agent_end_logs_elapsed
    (now : Z) (ctx : CallbackContext) (w : World) :
  ∀ t, state w !! start_time_key ctx = Some (VFloat t) →
       In (Log (InfoFinished (agent_name ctx) (duration_of now t)))
          (trace (on_agent_end now ctx w).2).
Proof.
  intros t Hk. unfold on_agent_end. rewrite bind_state_get, Hk.
  cbn [truthy]. unfold elapsed, duration_of.
  destruct (t =? 0)%Z; cbn [negb]; cbv beta iota;
    rewrite ?bind_ret; cbv beta; rewrite ?bind_ret; cbv beta;
    apply observer_after_emit; unfold print; observer_tac.
Qed.

(** X1. When the value under the start-time key is absent, a number, or
    the empty string, [on_agent_end] returns normally and logs FINISHED,
    with the elapsed time if the record is a non-zero number and with no
    duration otherwise. *)
Theorem on_agent_end_returns_without_text_record
    (now : Z) (ctx : CallbackContext) (w : World) :
  (∀ s, state w !! start_time_key ctx = Some (VStr s) → s = "") →
  (on_agent_end now ctx w).1 = Return tt
  ∧ In (Log (InfoFinished (agent_name ctx)
               match state w !! start_time_key ctx with
               | Some (VFloat t) => duration_of now t
               | _ => None
               end))
       (trace (on_agent_end now ctx w).2).
Proof.
  intros Hrec. unfold on_agent_end. rewrite bind_state_get.
  destruct (state w !! start_time_key ctx) as [[t | s] |] eqn:Hk.
  - cbn [truthy]. unfold elapsed, duration_of.
    destruct (t =? 0)%Z; cbn [negb]; cbv beta iota;
      rewrite ?bind_ret; cbv beta; rewrite ?bind_ret; cbv beta;
      (split; [apply returns_after_emit; unfold print; never_raises_tac
              | apply observer_after_emit; unfold print; observer_tac]).
  - rewrite (Hrec s eq_refl). cbn [truthy Py.truthy_str].
    rewrite bind_ret. cbv beta.
    split; [apply returns_after_emit; unfold print; never_raises_tac
           | apply observer_after_emit; unfold print; observer_tac].
  - rewrite bind_ret. cbv beta.
    split; [apply returns_after_emit; unfold print; never_raises_tac
           | apply observer_after_emit; unfold print; observer_tac].
Qed.

Lemma on_agent_end_returns_without_text_record_witness :
  (∀ s, state world0 !! start_time_key
          {| agent_name := "OutreachWriter"; invocation_id := "e-1" |}
        = Some (VStr s) → s = "")
  ∧ (on_agent_end 7 {| agent_name := "OutreachWriter";
                       invocation_id := "e-1" |} world0).1 = Return tt.
Proof.
  assert (H : ∀ s, state world0 !! start_time_key
                {| agent_name := "OutreachWriter"; invocation_id := "e-1" |}
              = Some (VStr s) → s = "") by (intros s Hs; discriminate Hs).
  split; [exact H |].
  exact (proj1 (on_agent_end_returns_without_text_record 7 _ world0 H)).
Defined.

(** X2. When a non-empty string sits under the start-time key,
    [on_agent_end] raises TypeError at the subtraction of line 71, before
    anything is logged or printed: the world is left exactly as it was. *)
Theorem on_agent_end_raises_on_text_record
    (now : Z) (ctx : CallbackContext) (w : World) (s : string) :
  s ≠ "" →
  state w !! start_time_key ctx = Some (VStr s) →
  on_agent_end now ctx w
  = (Raise (PyException "TypeError"
              "unsupported operand type(s) for -: 'float' and 'str'"), w).
Proof.
  intros Hs Hk. unfold on_agent_end. rewrite bind_state_get, Hk.
  destruct s as [| c s']; [done |]. cbn [truthy Py.truthy_str elapsed].
  rewrite !bind_raise. reflexivity.
Qed.

Lemma on_agent_end_raises_on_text_record_witness :
  let ctx := {| agent_name := "NewsResearcher"; invocation_id := "e-1" |} in
  let w := {| state := {[ start_time_key ctx := VStr "soon" ]};
              trace := [] |} in
  "soon" ≠ "" ∧ state w !! start_time_key ctx = Some (VStr "soon")
  ∧ (on_agent_end 7 ctx w).1
    = Raise (PyException "TypeError"
               "unsupported operand type(s) for -: 'float' and 'str'").
Proof.
  intros ctx w.
  assert (H1 : "soon" ≠ "") by discriminate.
  assert (H2 : state w !! start_time_key ctx = Some (VStr "soon"))
    by reflexivity.
  split; [exact H1 |]. split; [exact H2 |].
  by rewrite (on_agent_end_raises_on_text_record 7 ctx w "soon" H1 H2).
Defined.

(** ** What the end-hook prints *)

Lemma output_map_values (name k : string) :
  dict_get output_map name = Some k →
  k ∈ ["news_data"; "competitor_data"; "metrics_data"; "techstack_data";
       "lead_data"; "positioning_strategy"].
Proof.
  unfold output_map. cbn [dict_get]. intros H.
  repeat (destruct (String.eqb name _);
          [injection H as <-; set_solver |]).
  discriminate H.
Qed.

(** X3. The hook pair around an agent that stores its output: after
    [on_agent_start], a write of the non-empty text [s] under the key that
    [output_map] gives for the agent, and [on_agent_end], the state holds
    both the start record and the output, and the run has logged STARTED,
    logged FINISHED with the elapsed time, and printed the three-line block
    with the stripped text, in that order and nothing else. *)
Theorem hook_pair_reports_output
    (now1 now2 : Z) (ctx : CallbackContext) (k s : string) (w : World) :
  dict_get output_map (agent_name ctx) = Some k → s ≠ "" →
  (on_agent_start now1 ctx ;; state_set k (VStr s) ;; on_agent_end now2 ctx) w
  = (Return tt,
     {| state := <[k := VStr s]>
                   (<[start_time_key ctx := VFloat now1]> (state w));
        trace := trace w
                 ++ [Log (InfoStarted (agent_name ctx));
                     Log (InfoFinished (agent_name ctx)
                            (duration_of now2 now1))]
                 ++ output_block (agent_name ctx) (VStr s) |}).
Proof.
  intros Hmap Hs.
  assert (Hne : start_time_key ctx ≠ k)
    by (apply start_time_key_not_output_key, (output_map_values _ _ Hmap)).
  unfold on_agent_start. rewrite bind_assoc, bind_state_set. cbv beta.
  rewrite bind_emit. cbv beta. rewrite bind_state_set. cbv beta.
  unfold on_agent_end. rewrite bind_state_get. cbn [state extend].
  rewrite lookup_insert_ne by (by apply not_eq_sym).
  rewrite lookup_insert_eq. cbn [truthy]. unfold elapsed, duration_of.
  destruct s as [| c s']; [done |].
  destruct (now1 =? 0)%Z; cbn [negb]; cbv beta iota;
    rewrite ?bind_ret; cbv beta; rewrite ?bind_ret; cbv beta;
    rewrite bind_emit; cbv beta; rewrite Hmap, bind_state_get;
    cbn [state extend]; rewrite lookup_insert_eq;
    cbn [truthy Py.truthy_str]; unfold print;
    rewrite !bind_emit, emit_run; unfold extend, output_block;
    cbn [state trace py_str]; rewrite <- !app_assoc; reflexivity.
Qed.

Lemma hook_pair_reports_output_witness :
  let ctx := {| agent_name := "LeadResearcher"; invocation_id := "e-1" |} in
  dict_get output_map (agent_name ctx) = Some "lead_data" ∧ " Bio " ≠ ""
  ∧ stdout (trace ((on_agent_start 3 ctx ;; state_set "lead_data" (VStr " Bio ")
                    ;; on_agent_end 8 ctx) world0).2)
    = stdout (output_block "LeadResearcher" (VStr "Bio"))
  ∧ In (Log (InfoFinished "LeadResearcher" (Some 5%Z)))
       (trace ((on_agent_start 3 ctx ;; state_set "lead_data" (VStr " Bio ")
                ;; on_agent_end 8 ctx) world0).2).
Proof.
  intros ctx.
  assert (H1 : dict_get output_map (agent_name ctx) = Some "lead_data")
    by reflexivity.
  assert (H2 : " Bio " ≠ "") by discriminate.
  split; [exact H1 |]. split; [exact H2 |].
  rewrite (hook_pair_reports_output 3 8 ctx "lead_data" " Bio " world0 H1 H2).
  split; [reflexivity |]. cbn. right. left. reflexivity.
Defined.

(** X4. When the agent has no entry in [output_map], or nothing truthy is
    stored under its output key (no value, an empty text, a zero), the
    end-hook prints nothing: its only effect is the FINISHED log record. *)
Theorem on_agent_end_silent_without_output
    (now : Z) (ctx : CallbackContext) (w : World) :
  (∀ s, state w !! start_time_key ctx = Some (VStr s) → s = "") →
  (∀ k v, dict_get output_map (agent_name ctx) = Some k →
          state w !! k = Some v → truthy v = false) →
  ∃ d, on_agent_end now ctx w
       = (Return tt, extend w [Log (InfoFinished (agent_name ctx) d)]).
Proof.
  intros Hrec Hout. unfold on_agent_end. rewrite bind_state_get.
  assert (Htail : ∀ d,
    (emit (Log (InfoFinished (agent_name ctx) d)) ;;
     match dict_get output_map (agent_name ctx) with
     | Some state_key =>
         data ← state_get state_key;
         match data with
         | Some v =>
             if truthy v then
               print (String (ascii_of_N 10) (Py.repeat_str "-" 20)
                      +:+ " INTERMEDIATE OUTPUT: " +:+ agent_name ctx +:+ " "
                      +:+ Py.repeat_str "-" 20) ;;
               print (Py.strip (py_str v)) ;;
               print (Py.repeat_str "-" 65 +:+ String (ascii_of_N 10) "")
             else mret tt
         | None => mret tt
         end
     | None => mret tt
     end) w
    = (Return tt, extend w [Log (InfoFinished (agent_name ctx) d)])).
  { intros d. rewrite bind_emit. cbv beta.
    destruct (dict_get output_map (agent_name ctx)) as [k |] eqn:Hmap;
      [| reflexivity].
    rewrite bind_state_get. cbn [state extend].
    destruct (state w !! k) as [v |] eqn:Hv; [| reflexivity].
    by rewrite (Hout k v eq_refl Hv). }
  destruct (state w !! start_time_key ctx) as [[t | s] |] eqn:Hk.
  - cbn [truthy]. unfold elapsed.
    destruct (t =? 0)%Z; cbn [negb]; cbv beta iota;
      rewrite ?bind_ret; cbv beta; rewrite ?bind_ret; cbv beta;
      eexists; apply Htail.
  - rewrite (Hrec s eq_refl). cbn [truthy Py.truthy_str].
    rewrite bind_ret. cbv beta. eexists. apply Htail.
  - rewrite bind_ret. cbv beta. eexists. apply Htail.
Qed.

Lemma on_agent_end_silent_without_output_witness :
  let ctx := {| agent_name := "NewsResearcher"; invocation_id := "e-1" |} in
  let w := {| state := {[ "news_data" := VStr "" ]}; trace := [] |} in
  (∀ s, state w !! start_time_key ctx = Some (VStr s) → s = "")
  ∧ (∀ k v, dict_get output_map (agent_name ctx) = Some k →
            state w !! k = Some v → truthy v = false)
  ∧ stdout (trace (on_agent_end 7 ctx w).2) = [].
Proof.
  intros ctx w.
  assert (H1 : ∀ s, state w !! start_time_key ctx = Some (VStr s) → s = "")
    by (intros s Hs; discriminate Hs).
  assert (H2 : ∀ k v, dict_get output_map (agent_name ctx) = Some k →
                      state w !! k = Some v → truthy v = false).
  { intros k v [= <-] Hv. cbn in Hv.
    rewrite lookup_singleton_eq in Hv. by injection Hv as <-. }
  split; [exact H1 |]. split; [exact H2 |].
  destruct (on_agent_end_silent_without_output 7 ctx w H1 H2) as [d ->].
  reflexivity.
Defined.

(** [str.strip()] on text with Unicode whitespace around it: a no-break
    space (C2 A0) and a space in front, an em space (E2 80 83) and a line
    feed behind; whitespace inside the text stays. *)
Example strip_unicode_whitespace :
  Py.strip (String (ascii_of_N 194) (String (ascii_of_N 160)
              (" Bio of C." +:+ String (ascii_of_N 226)
                 (String (ascii_of_N 128) (String (ascii_of_N 131)
                    (String (ascii_of_N 10) EmptyString))))))
  = "Bio of C.".
Proof. reflexivity. Qed.

(** ** The hook table and the tree *)

(** X5. [output_map] of [on_agent_end] and the tree of [build_agents]
    agree on every name: looking a name up among the leaf agents of the
    tree and taking the output key it declares gives what [output_map] has
    for that name, a key for the six researchers and strategist, nothing
    for the outreach writer, the groups and any other name. *)
Theorem output_map_matches_tree (ts : option MCPToolset) (name : string) :
  (built_tree ts ≫= find_llm name) ≫= output_key
  = dict_get output_map name.
Proof.
  destruct ts; cbv -[String.eqb]; rewrite !(String.eqb_sym name);
    repeat (destruct (String.eqb _ name); [reflexivity |]); reflexivity.
Qed.

(** ** One start-time key per agent and invocation *)

Lemma append_cons (c : ascii) (a x : string) :
  String c a +:+ x = String c (a +:+ x).
Proof. reflexivity. Qed.

Lemma append_nil (x : string) : "" +:+ x = x.
Proof. reflexivity. Qed.

Lemma append_inv_head (p x y : string) : p +:+ x = p +:+ y → x = y.
Proof.
  induction p as [| c p IH]; rewrite ?append_nil, ?append_cons; [done |].
  intros [= H]. by apply IH.
Qed.

Lemma colon_free_append_colon (a b : string) :
  colon_free (a +:+ String ":"%char b) = false.
Proof.
  induction a as [| c a IH]; rewrite ?append_nil, ?append_cons;
    [reflexivity |].
  cbn [colon_free]. rewrite IH. apply andb_false_r.
Qed.

Lemma append_colon_inj (a b n m : string) :
  colon_free n = true → colon_free m = true →
  a +:+ String ":"%char n = b +:+ String ":"%char m → a = b ∧ n = m.
Proof.
  intros Hn Hm. revert b.
  induction a as [| c a IH]; intros [| d b] H;
    rewrite ?append_nil, ?append_cons in H.
  - by injection H as ->.
  - injection H as _ ->. by rewrite colon_free_append_colon in Hn.
  - injection H as _ <-. by rewrite colon_free_append_colon in Hm.
  - injection H as -> H. destruct (IH b H) as [-> ->]. done.
Qed.

Lemma start_time_key_inj (inv1 name1 inv2 name2 : string) :
  colon_free name1 = true → colon_free name2 = true →
  start_time_key {| agent_name := name1; invocation_id := inv1 |}
  = start_time_key {| agent_name := name2; invocation_id := inv2 |} →
  inv1 = inv2 ∧ name1 = name2.
Proof.
  intros H1 H2 Hk. unfold start_time_key in Hk. cbn [agent_name invocation_id] in Hk.
  apply append_inv_head in Hk. rewrite !append_cons, !append_nil in Hk.
  by apply append_colon_inj.
Qed.

(** A colon inside an agent name lets two pairs share one key. *)
Example start_time_key_clash :
  start_time_key {| agent_name := "b:c"; invocation_id := "a" |}
  = start_time_key {| agent_name := "c"; invocation_id := "a:b" |}.
Proof. reflexivity. Qed.

Lemma tree_names (ts : option MCPToolset) :
  map name_of <$> (agents_of <$> built_tree ts)
  = Some ["LeadResearchSystem"; "ParallelResearchTeam"; "NewsResearcher";
          "CompetitorResearcher"; "MetricsResearcher"; "TechStackResearcher";
          "LeadResearcher"; "PositioningStrategist"; "OutreachWriter"].
Proof. destruct ts; reflexivity. Qed.

(** X6. The agents of the tree of [build_agents] have pairwise distinct
    names without a colon, so an invocation id and an agent of the tree
    determine the start-time key and the key determines them: two timing
    records of the tree's agents never share a key, whatever the invocation
    ids are. *)
Theorem tree_start_time_keys_distinct
    (ts : option MCPToolset) (tree a b : agent) (inv1 inv2 : string) :
  built_tree ts = Some tree →
  a ∈ agents_of tree → b ∈ agents_of tree →
  start_time_key {| agent_name := name_of a; invocation_id := inv1 |}
  = start_time_key {| agent_name := name_of b; invocation_id := inv2 |} →
  inv1 = inv2 ∧ a = b.
Proof.
  intros Htree Ha Hb Hk.
  assert (Hall : Forall (λ x, colon_free (name_of x) = true) (agents_of tree)
                 ∧ NoDup (map name_of (agents_of tree))).
  { destruct ts; injection Htree as <-;
      (split; [repeat constructor
              | apply (bool_decide_unpack _); vm_compute; reflexivity]). }
  destruct Hall as [Hfree Hnd].
  rewrite Forall_forall in Hfree.
  destruct (start_time_key_inj _ _ _ _ (Hfree a Ha) (Hfree b Hb) Hk)
    as [-> Hname].
  split; [reflexivity |].
  apply list_elem_of_lookup in Ha as [i Hi], Hb as [j Hj].
  assert (i = j).
  { eapply NoDup_lookup; [exact Hnd | |];
      rewrite list_lookup_fmap; [by rewrite Hi | by rewrite Hj, Hname]. }
  subst j. congruence.
Qed.

Lemma tree_start_time_keys_distinct_witness :
  let tree := default (LlmAgent {| llm_name := ""; llm_model := "";
                  llm_instruction := NEWS_INSTRUCTION; output_key := None;
                  tools := []; disallow_transfer_to_parent := false;
                  disallow_transfer_to_peers := false;
                  before_agent_callback := None;
                  after_agent_callback := None;
                  before_tool_callback := None |}) (built_tree None) in
  built_tree None = Some tree
  ∧ tree ∈ agents_of tree
  ∧ start_time_key {| agent_name := name_of tree; invocation_id := "e-1" |}
    = start_time_key {| agent_name := name_of tree; invocation_id := "e-1" |}
  ∧ "e-1" = "e-1" ∧ tree = tree.
Proof.
  intros tree.
  assert (H1 : built_tree None = Some tree) by reflexivity.
  assert (H2 : tree ∈ agents_of tree) by (apply list_elem_of_here).
  split; [exact H1 |]. split; [exact H2 |]. split; [reflexivity |].
  exact (tree_start_time_keys_distinct None tree tree tree "e-1" "e-1"
           H1 H2 H2 eq_refl).
Defined.

(** X7. Hooks of two agents interleave without disturbing each other's
    timing: when [on_agent_start] of a second agent or invocation runs
    between the start-hook and the end-hook of the first (as for siblings
    of the parallel team), the end-hook of the first still logs the time
    elapsed since its own start. Agent names are taken without a colon. *)
Theorem interleaved_hooks_keep_timing
    (now1 now2 now3 : Z) (ctx1 ctx2 : CallbackContext) (w : World) :
  colon_free (agent_name ctx1) = true →
  colon_free (agent_name ctx2) = true →
  ctx1 ≠ ctx2 →
  In (Log (InfoFinished (agent_name ctx1) (duration_of now3 now1)))
     (trace ((on_agent_start now1 ctx1 ;; on_agent_start now2 ctx2 ;;
              on_agent_end now3 ctx1) w).2).
Proof.
  intros H1 H2 Hctx.
  assert (Hne : start_time_key ctx2 ≠ start_time_key ctx1).
  { intros Hk. destruct ctx1 as [n1 i1], ctx2 as [n2 i2].
    cbn [agent_name] in H1, H2.
    destruct (start_time_key_inj i2 n2 i1 n1 H2 H1 Hk) as [Hi Hn].
    apply Hctx. congruence. }
  unfold on_agent_start. rewrite bind_assoc, bind_state_set. cbv beta.
  rewrite bind_emit. cbv beta.
  rewrite bind_assoc, bind_state_set. cbv beta. rewrite bind_emit. cbv beta.
  apply on_agent_end_logs_elapsed.
  cbn [state extend]. rewrite lookup_insert_ne by exact Hne.
  apply lookup_insert_eq.
Qed.

Lemma interleaved_hooks_keep_timing_witness :
  let news := {| agent_name := "NewsResearcher"; invocation_id := "e-1" |} in
  let lead := {| agent_name := "LeadResearcher"; invocation_id := "e-1" |} in
  colon_free (agent_name news) = true
  ∧ colon_free (agent_name lead) = true
  ∧ news ≠ lead
  ∧ In (Log (InfoFinished "NewsResearcher" (Some 9%Z)))
       (trace ((on_agent_start 1 news ;; on_agent_start 2 lead ;;
                on_agent_end 10 news) world0).2).
Proof.
  intros news lead.
  assert (H1 : colon_free (agent_name news) = true) by reflexivity.
  assert (H2 : colon_free (agent_name lead) = true) by reflexivity.
  assert (H3 : news ≠ lead) by discriminate.
  split; [exact H1 |]. split; [exact H2 |]. split; [exact H3 |].
  exact (interleaved_hooks_keep_timing 1 2 10 news lead world0 H1 H2 H3).
Defined.

(** ** Instrumentation and tools of the tree *)

(** X8. Every agent of the tree of [build_agents], the root and the
    parallel team included, carries [on_agent_start] as its before-callback
    and [on_agent_end] as its after-callback, and every agent that has
    tools carries [on_tool_start] as its before-tool callback. *)
Theorem every_agent_is_instrumented
    (ts : option MCPToolset) (tree a : agent) :
  built_tree ts = Some tree →
  a ∈ agents_of tree →
  agent_callbacks a = (Some cb_on_agent_start, Some cb_on_agent_end)
  ∧ (tools_of a = [] ∨ tool_callback_of a = Some cb_on_tool_start).
Proof.
  intros Htree Ha.
  assert (Hall : Forall (λ x,
            agent_callbacks x = (Some cb_on_agent_start, Some cb_on_agent_end)
            ∧ (tools_of x = [] ∨ tool_callback_of x = Some cb_on_tool_start))
          (agents_of tree)).
  { destruct ts; injection Htree as <-; cbv;
      repeat (apply Forall_cons; split;
              [split; [reflexivity | first [by left | by right]] |]);
      constructor. }
  rewrite Forall_forall in Hall. by apply Hall.
Qed.

Lemma every_agent_is_instrumented_witness :
  let lead := LlmAgent {|
    llm_name := "LeadResearcher"; llm_model := MODEL_NAME;
    llm_instruction := LEAD_INSTRUCTION; output_key := Some "lead_data";
    tools := [google_search];
    disallow_transfer_to_parent := true; disallow_transfer_to_peers := true;
    before_agent_callback := Some cb_on_agent_start;
    after_agent_callback := Some cb_on_agent_end;
    before_tool_callback := Some cb_on_tool_start |} in
  let tree := default lead (built_tree None) in
  built_tree None = Some tree ∧ lead ∈ agents_of tree
  ∧ agent_callbacks lead = (Some cb_on_agent_start, Some cb_on_agent_end).
Proof.
  intros lead tree.
  assert (Hb : built_tree None = Some tree) by reflexivity.
  assert (Hin : lead ∈ agents_of tree)
    by (subst tree lead; cbv; do 6 apply list_elem_of_further;
        apply list_elem_of_here).
  split; [exact Hb |]. split; [exact Hin |].
  exact (proj1 (every_agent_is_instrumented None tree lead Hb Hin)).
Defined.

(** X9. When a tool set is passed to [build_agents], the LeadResearcher
    has it as its only tool ([google_search] is not kept beside it) and no
    other agent of the tree has an MCP tool set among its tools. *)
Theorem toolset_only_in_lead_researcher
    (ts : MCPToolset) (tree a : agent) :
  built_tree (Some ts) = Some tree →
  a ∈ agents_of tree →
  existsb is_mcp (tools_of a) = String.eqb (name_of a) "LeadResearcher"
  ∧ (String.eqb (name_of a) "LeadResearcher" = true
     → tools_of a = [mcp_tools ts]).
Proof.
  intros Htree Ha.
  assert (Hall : Forall (λ x,
            existsb is_mcp (tools_of x)
            = String.eqb (name_of x) "LeadResearcher"
            ∧ (String.eqb (name_of x) "LeadResearcher" = true
               → tools_of x = [mcp_tools ts]))
          (agents_of tree)).
  { injection Htree as <-. cbv -[String.eqb].
    repeat (apply Forall_cons; split;
            [split; [reflexivity | intros H; first [reflexivity
                                                   | discriminate H]] |]).
    constructor. }
  rewrite Forall_forall in Hall. by apply Hall.
Qed.

Lemma toolset_only_in_lead_researcher_witness :
  let ts := {| connection_url := "https://mcp.exa.ai/mcp" |} in
  let lead := LlmAgent {|
    llm_name := "LeadResearcher"; llm_model := MODEL_NAME;
    llm_instruction := LEAD_INSTRUCTION; output_key := Some "lead_data";
    tools := [mcp_tools ts];
    disallow_transfer_to_parent := true; disallow_transfer_to_peers := true;
    before_agent_callback := Some cb_on_agent_start;
    after_agent_callback := Some cb_on_agent_end;
    before_tool_callback := Some cb_on_tool_start |} in
  let tree := default lead (built_tree (Some ts)) in
  built_tree (Some ts) = Some tree ∧ lead ∈ agents_of tree
  ∧ existsb is_mcp (tools_of lead) = true.
Proof.
  intros ts lead tree.
  assert (Hb : built_tree (Some ts) = Some tree) by reflexivity.
  assert (Hin : lead ∈ agents_of tree)
    by (subst tree lead; cbv; do 6 apply list_elem_of_further;
        apply list_elem_of_here).
  split; [exact Hb |]. split; [exact Hin |].
  exact (proj1 (toolset_only_in_lead_researcher ts tree lead Hb Hin)).
Defined.

(** ** The driver: credentials, files, order of teardown *)

Lemma env_unset_get (environ : gmap string string) (name : string) :
  env_unset environ name = true ↔ environ_get environ name = "".
Proof.
  unfold env_unset, environ_get.
  destruct (environ !! name) as [[| c v] |]; cbn; split; done.
Qed.

Lemma startup_effects_keep_files (e : effect) :
  keeps_files e → Forall keeps_files (startup_effects [e]).
Proof. intros He. unfold startup_effects. by repeat constructor. Qed.

(** A started run, with or without a tool connection: its effects are the
    start-up, the event loop and the teardown; start-up and teardown touch
    no file; the outcome is that of the event loop unless [close] raised a
    [BaseException]. *)
Lemma main_started (environ : gmap string string) (ext : Externals)
    (w : World) :
  model_credential_present environ = true →
  ∃ pre post,
    (main environ ext w).2
    = extend w (pre ++ effects_of (event_loop ext) ++ post)
    ∧ In (CreateSession APP_NAME USER_ID SESSION_ID) pre
    ∧ Forall keeps_files pre ∧ Forall keeps_files post
    ∧ ((main environ ext w).1 = result_of (event_loop ext)
       ∨ ∃ cls msg, close_error ext = Some (PyBaseException cls msg)
                    ∧ (main environ ext w).1
                      = Raise (PyBaseException cls msg)).
Proof.
  intros Hcred.
  destruct (environ !! "EXA_API_KEY") as [[| c key] |] eqn:Hkey.
  - rewrite (main_without_toolset environ ext w Hcred (or_intror Hkey)).
    exists (startup_effects [Log WarnExaKeyNotSet]), [].
    rewrite app_nil_r. split; [reflexivity |]. split; [by left |].
    split; [by apply startup_effects_keep_files |]. split; [constructor |].
    by left.
  - assert (Hne : String c key ≠ "") by discriminate.
    rewrite (main_with_toolset environ ext w _ Hcred Hkey Hne).
    eexists (startup_effects [NewToolset _]), (cleanup_effects ext _).
    split; [reflexivity |]. split; [by left |].
    split; [by apply startup_effects_keep_files |].
    split; [apply cleanup_effects_keep_files |]. cbn [fst].
    destruct (close_error ext) as [[cls msg | cls msg] |];
      [by left | right; by exists cls, msg | by left].
  - rewrite (main_without_toolset environ ext w Hcred (or_introl Hkey)).
    exists (startup_effects [Log WarnExaKeyNotSet]), [].
    rewrite app_nil_r. split; [reflexivity |]. split; [by left |].
    split; [by apply startup_effects_keep_files |]. split; [constructor |].
    by left.
Qed.

(** X10. [main] creates the session exactly when GOOGLE_API_KEY or
    GOOGLE_GENAI_USE_VERTEXAI has a non-empty value: a variable set to the
    empty string counts as missing, and any non-empty value of either one,
    whatever it says, lets the run start. *)
Theorem session_created_iff_model_credential
    (environ : gmap string string) (ext : Externals) (w : World) :
  ∃ new,
    (main environ ext w).2 = extend w new
    ∧ (In (CreateSession APP_NAME USER_ID SESSION_ID) new
       ↔ environ_get environ "GOOGLE_API_KEY" ≠ ""
         ∨ environ_get environ "GOOGLE_GENAI_USE_VERTEXAI" ≠ "").
Proof.
  destruct (model_credential_present environ) eqn:Hcred.
  - destruct (main_started environ ext w Hcred)
      as (pre & post & -> & Hin & _).
    eexists. split; [reflexivity |]. split.
    + intros _. unfold model_credential_present in Hcred.
      apply negb_true_iff, andb_false_iff in Hcred as [H | H];
        [left | right]; intros Hget; apply env_unset_get in Hget; congruence.
    + intros _. apply in_or_app. by left.
  - rewrite (main_aborts environ ext w Hcred).
    eexists. split; [reflexivity |].
    unfold model_credential_present in Hcred.
    apply negb_false_iff, andb_true_iff in Hcred as [H1 H2].
    apply env_unset_get in H1, H2. split.
    + intros [H | []]. discriminate H.
    + intros [H | H]; contradiction.
Qed.

Lemma files_after_leaves (path : string) (tr : list effect) :
  Forall (leaves_path path) tr →
  ∀ fs, files_after fs tr !! path = fs !! path.
Proof.
  induction 1 as [| e tr He _ IH]; intros fs; [reflexivity |].
  cbn. unfold files_after in IH. by rewrite IH.
Qed.

Lemma keeps_files_leaves (path : string) (tr : list effect) :
  Forall keeps_files tr → Forall (leaves_path path) tr.
Proof.
  intros H. eapply Forall_impl; [exact H |]. intros e He fs. by rewrite He.
Qed.

Lemma writes_only_leaves (path other : string) (tr : list effect) :
  other ≠ path →
  Forall (writes_only path) tr → Forall (leaves_path other) tr.
Proof.
  intros Hne H. eapply Forall_impl; [exact H |]. intros e He fs.
  destruct e; cbn in *; try reflexivity; subst;
    by rewrite lookup_insert_ne by (by apply not_eq_sym).
Qed.

Lemma handle_event_writes_only (ext : Externals) (event : Event) :
  trace_only (writes_only "sales_outreach.md") (handle_event ext event).
Proof.
  unfold handle_event, first_part_text, write_text_file, print.
  trace_only_tac; reflexivity.
Qed.

Lemma event_loop_writes_only (ext : Externals) :
  Forall (writes_only "sales_outreach.md") (effects_of (event_loop ext)).
Proof.
  apply (trace_only_run (writes_only "sales_outreach.md")).
  unfold event_loop. apply trace_only_bind.
  - apply trace_only_for_each, handle_event_writes_only.
  - intros _. trace_only_tac.
Qed.

(** X11. Whatever the environment, the event stream and the failures of
    [open] and [close], a run of [main] leaves every file other than
    "sales_outreach.md" as it was. *)
Theorem main_writes_only_the_draft
    (environ : gmap string string) (ext : Externals) (w : World)
    (fs : gmap string string) (path : string) :
  path ≠ "sales_outreach.md" →
  ∃ new, (main environ ext w).2 = extend w new
         ∧ files_after fs new !! path = fs !! path.
Proof.
  intros Hpath.
  destruct (model_credential_present environ) eqn:Hcred.
  - destruct (main_started environ ext w Hcred)
      as (pre & post & -> & _ & Hpre & Hpost & _).
    eexists. split; [reflexivity |].
    apply files_after_leaves. apply Forall_app. split.
    + by apply keeps_files_leaves.
    + apply Forall_app. split.
      * apply (writes_only_leaves "sales_outreach.md"); [done |].
        apply event_loop_writes_only.
      * by apply keeps_files_leaves.
  - rewrite (main_aborts environ ext w Hcred).
    eexists. split; [reflexivity |]. reflexivity.
Qed.

Lemma main_writes_only_the_draft_witness :
  "notes.md" ≠ "sales_outreach.md"
  ∧ ∃ new,
      (main full_environ completed_run world0).2 = extend world0 new
      ∧ files_after {[ "notes.md" := "keep" ]} new !! "notes.md"
        = Some "keep".
Proof.
  assert (H : "notes.md" ≠ "sales_outreach.md") by discriminate.
  split; [exact H |].
  destruct (main_writes_only_the_draft full_environ completed_run world0
              {[ "notes.md" := "keep" ]} "notes.md" H) as (new & Hnew & Hfs).
  exists new. split; [exact Hnew |]. rewrite Hfs. reflexivity.
Defined.

(** X12. In a started run with a tool connection, [close] comes after
    everything the event loop did (every print and every file write) and
    is the last external action of the run: after it comes nothing, or the
    one warning that reports its failure. *)
Theorem close_is_last_action
    (environ : gmap string string) (ext : Externals) (w : World)
    (key : string) :
  model_credential_present environ = true →
  environ !! "EXA_API_KEY" = Some key → key ≠ "" →
  ∃ ts start after,
    (main environ ext w).2
    = extend w (start ++ effects_of (event_loop ext)
                ++ [Print (nl +:+ "Closing Exa toolset connection...");
                    ToolsetClose ts] ++ after)
    ∧ close_count (start ++ effects_of (event_loop ext)) = 0
    ∧ (after = [] ∨ ∃ msg, after = [Log (WarnCleanup msg)]).
Proof.
  intros Hcred Hkey Hne.
  rewrite (main_with_toolset environ ext w key Hcred Hkey Hne).
  destruct (trace_only_run is_io _ (event_loop_trace_only ext)) as [_ Hio].
  apply io_counts in Hio as [Hclose _].
  eexists. eexists (startup_effects [NewToolset _]). eexists.
  split; [unfold cleanup_effects; reflexivity |].
  split; [by rewrite close_count_app, Hclose |].
  destruct (close_error ext) as [[cls msg | cls msg] |];
    [right; by exists msg | by left | by left].
Qed.

Lemma close_is_last_action_witness :
  model_credential_present full_environ = true
  ∧ full_environ !! "EXA_API_KEY" = Some "k-123" ∧ "k-123" ≠ ""
  ∧ ∃ ts start after,
      (main full_environ failed_run world0).2
      = extend world0
          (start ++ effects_of (event_loop failed_run)
           ++ [Print (nl +:+ "Closing Exa toolset connection...");
               ToolsetClose ts] ++ after)
      ∧ close_count (start ++ effects_of (event_loop failed_run)) = 0
      ∧ (after = [] ∨ ∃ msg, after = [Log (WarnCleanup msg)]).
Proof.
  split; [reflexivity |]. split; [reflexivity |]. split; [discriminate |].
  apply (close_is_last_action full_environ failed_run world0 "k-123");
    [reflexivity | reflexivity | discriminate].
Defined.

(** ** The driver: final responses that cannot be saved *)

Lemma for_each_app {A : Type} (xs ys : list A) (body : A → M unit)
    (w : World) :
  for_each (xs ++ ys) body w = (for_each xs body ;; for_each ys body) w.
Proof.
  revert w. induction xs as [| x xs IH]; intros w; [reflexivity |].
  cbn [app for_each]. rewrite bind_assoc. unfold mbind, M_bind.
  destruct (body x w) as [[[] | e] w1]; [apply IH | reflexivity].
Qed.

(** The event loop stops at the first event whose handling raises; the
    events before it, none of them a final output, only print. *)
Lemma event_loop_stops_at (ext : Externals) (pre post : list Event)
    (e : Event) (err : raised) (tre : list effect) :
  events ext = pre ++ e :: post →
  last_final_output pre = None →
  (∀ w, handle_event ext e w = (Raise err, extend w tre)) →
  ∃ trp, Forall is_print trp
         ∧ result_of (event_loop ext) = Raise err
         ∧ effects_of (event_loop ext) = trp ++ tre.
Proof.
  intros Hev Hpre He.
  destruct (for_each_others ext pre Hpre) as (trp & Hp & Hrun).
  exists trp. split; [exact Hp |].
  assert (Hloop : event_loop ext world0
                  = (Raise err, extend world0 (trp ++ tre))).
  { unfold event_loop. rewrite Hev.
    apply bind_run_raise. rewrite for_each_app.
    rewrite (bind_run _ _ _ _ _ (Hrun world0)), for_each_cons, He.
    by rewrite extend_extend. }
  unfold result_of, effects_of. rewrite Hloop. split; reflexivity.
Qed.

(** How a started run ends when its event loop raises [err]. *)
Lemma main_started_raises (environ : gmap string string) (ext : Externals)
    (w : World) (err : raised) :
  model_credential_present environ = true →
  result_of (event_loop ext) = Raise err →
  (main environ ext w).1 = Raise err
  ∨ ∃ cls msg, close_error ext = Some (PyBaseException cls msg)
               ∧ (main environ ext w).1 = Raise (PyBaseException cls msg).
Proof.
  intros Hcred Hres.
  destruct (main_started environ ext w Hcred)
    as (pre & post & _ & _ & _ & _ & [H | H]); [left | right; exact H].
  by rewrite H.
Qed.

Lemma handle_event_without_parts (ext : Externals) (e : Event) (c : Content)
    (w : World) :
  is_final_output e = true → content e = Some c → parts c = Some [] →
  handle_event ext e w
  = (Raise (PyException "IndexError" "list index out of range"),
     extend w []).
Proof.
  unfold is_final_output, handle_event. intros He Hc Hp. rewrite Hc in *.
  destruct (is_final_response e); [| discriminate He]. cbn in He.
  rewrite He. unfold first_part_text. rewrite Hp, bind_raise.
  by rewrite extend_nil.
Qed.

(** X13. A final response of the OutreachWriter whose content has an empty
    list of parts makes the indexing at line 302 raise IndexError: the run
    stops there (later events are not handled), [main] raises, and no file
    is opened or written. *)
Theorem final_response_without_parts_raises
    (environ : gmap string string) (ext : Externals) (w : World)
    (pre post : list Event) (e : Event) (c : Content)
    (fs : gmap string string) :
  model_credential_present environ = true →
  events ext = pre ++ e :: post →
  last_final_output pre = None →
  is_final_output e = true → content e = Some c → parts c = Some [] →
  result_of (event_loop ext)
  = Raise (PyException "IndexError" "list index out of range")
  ∧ (∃ err, (main environ ext w).1 = Raise err)
  ∧ ∃ new, (main environ ext w).2 = extend w new
           ∧ files_after fs new = fs.
Proof.
  intros Hcred Hev Hpre He Hc Hp.
  destruct (event_loop_stops_at ext pre post e _ []
              Hev Hpre (λ w0, handle_event_without_parts ext e c w0 He Hc Hp))
    as (trp & Hprints & Hres & Heff).
  split; [exact Hres |]. split.
  - destruct (main_started_raises environ ext w _ Hcred Hres)
      as [H | (cls & msg & _ & H)]; eexists; exact H.
  - destruct (main_started environ ext w Hcred)
      as (pre' & post' & -> & _ & Hk1 & Hk2 & _).
    eexists. split; [reflexivity |].
    apply files_after_keeps. rewrite Heff, app_nil_r.
    apply Forall_app. split; [exact Hk1 |].
    apply Forall_app. split; [by apply is_print_keeps_files | exact Hk2].
Qed.

Lemma final_response_without_parts_raises_witness :
  let ext := run_with event_without_parts None in
  model_credential_present model_only_environ = true
  ∧ events ext = [positioning_event] ++ event_without_parts
                 :: [positioning_event]
  ∧ (main model_only_environ ext world0).1
    = Raise (PyException "IndexError" "list index out of range")
  ∧ result_of (event_loop ext)
    = Raise (PyException "IndexError" "list index out of range").
Proof.
  intros ext.
  split; [reflexivity |]. split; [reflexivity |]. split; [reflexivity |].
  exact (proj1 (final_response_without_parts_raises model_only_environ ext
                  world0 [positioning_event] [positioning_event]
                  event_without_parts {| parts := Some [] |} ∅
                  eq_refl eq_refl eq_refl eq_refl eq_refl eq_refl)).
Defined.

Lemma handle_event_open_fails (ext : Externals) (e : Event) (c : Content)
    (p : Part) (ps : list Part) (err : raised) (w : World) :
  is_final_output e = true → content e = Some c →
  parts c = Some (p :: ps) →
  open_error ext "sales_outreach.md" = Some err →
  handle_event ext e w
  = (Raise err,
     extend w [Print (nl +:+ banner); Print "📧 FINAL OUTREACH DRAFT";
               Print (banner +:+ nl); Print (str_of_optional (text p))]).
Proof.
  unfold is_final_output, handle_event. intros He Hc Hp Hopen.
  rewrite Hc in *. destruct (is_final_response e); [| discriminate He].
  cbn in He. rewrite He. unfold first_part_text. rewrite Hp, bind_ret.
  unfold print, write_text_file.
  do 4 (rewrite bind_emit; cbv beta zeta).
  rewrite Hopen, bind_raise. by rewrite !extend_extend.
Qed.

(** X14. When [open] fails for "sales_outreach.md" (say with a
    PermissionError), the draft of the first final response is still
    printed, then the error of [open] ends the event loop: [main] raises
    and the file system is left as it was. *)
Theorem draft_printed_but_not_saved_when_open_fails
    (environ : gmap string string) (ext : Externals) (w : World)
    (pre post : list Event) (e : Event) (c : Content) (p : Part)
    (ps : list Part) (err : raised) (fs : gmap string string) :
  model_credential_present environ = true →
  events ext = pre ++ e :: post →
  last_final_output pre = None →
  is_final_output e = true → content e = Some c →
  parts c = Some (p :: ps) →
  open_error ext "sales_outreach.md" = Some err →
  result_of (event_loop ext) = Raise err
  ∧ (∃ err', (main environ ext w).1 = Raise err')
  ∧ ∃ new, (main environ ext w).2 = extend w new
           ∧ In (str_of_optional (text p)) (stdout new)
           ∧ files_after fs new = fs.
Proof.
  intros Hcred Hev Hpre He Hc Hp Hopen.
  destruct (event_loop_stops_at ext pre post e _ _ Hev Hpre
              (λ w0, handle_event_open_fails ext e c p ps err w0 He Hc Hp
                        Hopen))
    as (trp & Hprints & Hres & Heff).
  split; [exact Hres |]. split.
  - destruct (main_started_raises environ ext w _ Hcred Hres)
      as [H | (cls & msg & _ & H)]; eexists; exact H.
  - destruct (main_started environ ext w Hcred)
      as (pre' & post' & -> & _ & Hk1 & Hk2 & _).
    eexists. split; [reflexivity |]. rewrite Heff. split.
    + apply stdout_In. apply in_or_app. right. apply in_or_app. left.
      apply in_or_app. right. cbn. tauto.
    + apply files_after_keeps.
      apply Forall_app. split; [exact Hk1 |].
      apply Forall_app. split; [| exact Hk2].
      apply Forall_app. split; [by apply is_print_keeps_files |].
      repeat constructor.
Qed.

Lemma draft_printed_but_not_saved_when_open_fails_witness :
  let err := PyException "PermissionError" "Permission denied" in
  let ext := run_with outreach_event (Some err) in
  model_credential_present model_only_environ = true
  ∧ open_error ext "sales_outreach.md" = Some err
  ∧ result_of (event_loop ext) = Raise err
  ∧ (main model_only_environ ext world0).1 = Raise err
  ∧ In "Hi Carlos" (stdout (trace (main model_only_environ ext world0).2)).
Proof.
  intros err ext.
  split; [reflexivity |]. split; [reflexivity |].
  split; [| split; [reflexivity | vm_compute; tauto]].
  exact (proj1 (draft_printed_but_not_saved_when_open_fails
                  model_only_environ ext world0 [positioning_event]
                  [positioning_event] outreach_event
                  {| parts := Some [{| text := Some "Hi Carlos" |}] |}
                  {| text := Some "Hi Carlos" |} [] err ∅
                  eq_refl eq_refl eq_refl eq_refl eq_refl eq_refl eq_refl)).
Defined.

Lemma handle_event_without_text (ext : Externals) (e : Event) (c : Content)
    (p : Part) (ps : list Part) (w : World) :
  is_final_output e = true → content e = Some c →
  parts c = Some (p :: ps) → text p = None →
  open_error ext "sales_outreach.md" = None →
  handle_event ext e w
  = (Raise (PyException "TypeError" "write() argument must be str, not None"),
     extend w ([Print (nl +:+ banner); Print "📧 FINAL OUTREACH DRAFT";
                Print (banner +:+ nl); Print "None"]
               ++ [FileOpenW "sales_outreach.md"])).
Proof.
  unfold is_final_output, handle_event. intros He Hc Hp Ht Hopen.
  rewrite Hc in *. destruct (is_final_response e); [| discriminate He].
  cbn in He. rewrite He. unfold first_part_text. rewrite Hp, bind_ret.
  unfold print, write_text_file.
  do 4 (rewrite bind_emit; cbv beta zeta).
  rewrite Hopen, Ht, bind_assoc, bind_emit. cbv beta.
  rewrite bind_raise. by rewrite !extend_extend.
Qed.

Lemma files_after_truncated (fs : gmap string string)
    (tr1 tr2 : list effect) (path : string) :
  Forall keeps_files tr2 →
  files_after fs (tr1 ++ [FileOpenW path] ++ tr2) !! path = Some "".
Proof.
  intros H. unfold files_after. rewrite !fold_left_app.
  fold (files_after (fold_left fs_step [FileOpenW path]
                       (fold_left fs_step tr1 fs)) tr2).
  rewrite (files_after_keeps _ tr2 H). cbn. apply lookup_insert_eq.
Qed.

(** X15. A final response of the OutreachWriter whose first part has no
    text (a part that is not text): "None" is printed, the file
    "sales_outreach.md" is opened for writing and thereby emptied, and the
    write raises TypeError; [main] raises and the file is left empty,
    whatever it held before. *)
Theorem final_response_without_text_empties_the_file
    (environ : gmap string string) (ext : Externals) (w : World)
    (pre post : list Event) (e : Event) (c : Content) (p : Part)
    (ps : list Part) (fs : gmap string string) :
  model_credential_present environ = true →
  events ext = pre ++ e :: post →
  last_final_output pre = None →
  is_final_output e = true → content e = Some c →
  parts c = Some (p :: ps) → text p = None →
  open_error ext "sales_outreach.md" = None →
  result_of (event_loop ext)
  = Raise (PyException "TypeError" "write() argument must be str, not None")
  ∧ (∃ err, (main environ ext w).1 = Raise err)
  ∧ ∃ new, (main environ ext w).2 = extend w new
           ∧ In "None" (stdout new)
           ∧ files_after fs new !! "sales_outreach.md" = Some "".
Proof.
  intros Hcred Hev Hpre He Hc Hp Ht Hopen.
  destruct (event_loop_stops_at ext pre post e _ _ Hev Hpre
              (λ w0, handle_event_without_text ext e c p ps w0 He Hc Hp Ht
                        Hopen))
    as (trp & Hprints & Hres & Heff).
  split; [exact Hres |]. split.
  - destruct (main_started_raises environ ext w _ Hcred Hres)
      as [H | (cls & msg & _ & H)]; eexists; exact H.
  - destruct (main_started environ ext w Hcred)
      as (pre' & post' & -> & _ & Hk1 & Hk2 & _).
    eexists. split; [reflexivity |]. rewrite Heff. split.
    + apply stdout_In. apply in_or_app. right. apply in_or_app. left.
      apply in_or_app. right. cbn. tauto.
    + rewrite !app_assoc, <- (app_assoc _ [FileOpenW _] post').
      by apply files_after_truncated.
Qed.

Lemma final_response_without_text_empties_the_file_witness :
  let ext := run_with event_without_text None in
  let fs : gmap string string := {[ "sales_outreach.md" := "old draft" ]} in
  model_credential_present model_only_environ = true
  ∧ open_error ext "sales_outreach.md" = None
  ∧ (main model_only_environ ext world0).1
    = Raise (PyException "TypeError"
               "write() argument must be str, not None")
  ∧ files_after fs (trace (main model_only_environ ext world0).2)
      !! "sales_outreach.md" = Some ""
  ∧ result_of (event_loop ext)
    = Raise (PyException "TypeError"
               "write() argument must be str, not None").
Proof.
  intros ext fs.
  split; [reflexivity |]. split; [reflexivity |]. split; [reflexivity |].
  split; [reflexivity |].
  exact (proj1 (final_response_without_text_empties_the_file
                  model_only_environ ext world0 [positioning_event]
                  [positioning_event] event_without_text
                  {| parts := Some [{| text := None |}] |}
                  {| text := None |} [] ∅
                  eq_refl eq_refl eq_refl eq_refl eq_refl eq_refl eq_refl
                  eq_refl)).
Defined.

(** ** The escaped allow-list *)

Lemma all_chars_append (p : ascii → bool) (a b : string) :
  all_chars p (a +:+ b) = all_chars p a && all_chars p b.
Proof.
  induction a as [| c a IH]; [reflexivity |].
  change (String c a +:+ b) with (String c (a +:+ b)).
  cbn [all_chars]. by rewrite IH, andb_assoc.
Qed.

Lemma hex2_upper_url_chars (c : ascii) :
  all_chars url_char (Py.hex2_upper (Py.byte_of c)) = true.
Proof. destruct c as [[] [] [] [] [] [] [] []]; vm_compute; reflexivity. Qed.

(** X16. The escaping applied to the allow-list at line 188
    ([urllib.parse.quote] with its default safe set) yields, for every
    input string, only unreserved characters (letters, digits, [_.-~]),
    slashes and percent signs: no [&], [=], [?], [#], space or quote of the
    JSON text reaches the query string of the URL. *)
Theorem quote_output_is_url_safe (s : string) :
  all_chars url_char (Py.quote s) = true.
Proof.
  induction s as [| c s IH]; [reflexivity |]. cbn [Py.quote]. cbv zeta.
  destruct (Py.quote_safe (Py.byte_of c)) eqn:Hsafe.
  - cbn [all_chars]. unfold url_char at 1. by rewrite Hsafe, IH.
  - rewrite !all_chars_append, hex2_upper_url_chars, IH. reflexivity.
Qed.

(** In particular the allow-list of [create_exa_toolset]. *)
Example enabled_tools_escaped_is_url_safe :
  all_chars url_char (Py.quote (Py.json_dumps enabled_tools)) = true
  ∧ all_chars url_char (Py.json_dumps enabled_tools) = false.
Proof. split; reflexivity. Qed.
